(** * E-Complaint Justice Tracking System: credential store, complaint store,
      routing and status workflow of [complaint_system.py].

    Python [str] values are held as Rocq strings carrying their UTF-8 bytes:
    emptiness, equality and the code-point order used by [sorted] are the
    same on both sides, and [str.encode()] is the identity.  The two JSON
    documents are the [users] map and the [complaints] list of a [World];
    [load_*] and [save_*] read and replace them whole.  Readings of the clock
    are arguments of the operations that take them, and an exception ends a
    script run, keeping what was written before it. *)

From Stdlib Require Import ZArith List String Ascii Lia Sorted Permutation.
From stdpp Require Import base option list strings gmap pretty.

Local Open Scope Z_scope.

(** ** hashlib.sha256(...).hexdigest() *)

Module SHA256.

Definition w32 (x : Z) : Z := x mod 2 ^ 32.
Definition add32 (x y : Z) : Z := w32 (x + y).
Definition rotr (n x : Z) : Z :=
  Z.lor (Z.shiftr x n) (w32 (Z.shiftl x (32 - n))).
Definition shr (n x : Z) : Z := Z.shiftr x n.

Definition Ch (x y z : Z) : Z :=
  Z.lxor (Z.land x y) (Z.land (w32 (Z.lnot x)) z).
Definition Maj (x y z : Z) : Z :=
  Z.lxor (Z.lxor (Z.land x y) (Z.land x z)) (Z.land y z).
Definition Sigma0 (x : Z) : Z :=
  Z.lxor (Z.lxor (rotr 2 x) (rotr 13 x)) (rotr 22 x).
Definition Sigma1 (x : Z) : Z :=
  Z.lxor (Z.lxor (rotr 6 x) (rotr 11 x)) (rotr 25 x).
Definition sigma0 (x : Z) : Z :=
  Z.lxor (Z.lxor (rotr 7 x) (rotr 18 x)) (shr 3 x).
Definition sigma1 (x : Z) : Z :=
  Z.lxor (Z.lxor (rotr 17 x) (rotr 19 x)) (shr 10 x).

(** The round constants and the initial hash value are the first 32 bits of
    the fractional parts of the cube roots of the first 64 primes and of the
    square roots of the first 8. *)
Definition is_prime (n : Z) : bool :=
  forallb (fun d => negb (n mod Z.of_nat d =? 0))
          (List.seq 2 (Z.to_nat n - 2)).

Definition primes : list Z :=
  List.firstn 64 (List.filter is_prime (List.map Z.of_nat (List.seq 2 310))).

(** Largest [r] below [2 ^ bits] with [r ^ k <= n], found bit by bit. *)
Fixpoint root_floor (k n : Z) (bits : nat) (r : Z) : Z :=
  match bits with
  | O => r
  | S b =>
      let r' := r + 2 ^ Z.of_nat b in
      root_floor k n b (if r' ^ k <=? n then r' else r)
  end.

Definition root_fraction (k p : Z) : Z :=
  w32 (root_floor k (p * 2 ^ (32 * k)) 40 0).

Definition K : list Z := List.map (root_fraction 3) primes.

Definition bytes_of (s : string) : list Z :=
  List.map (fun c => Z.of_N (N_of_ascii c)) (list_ascii_of_string s).

(** Big-endian encoding of [x] on [n] bytes. *)
Fixpoint be_bytes (n : nat) (x : Z) : list Z :=
  match n with
  | O => []
  | S n' => Z.shiftr x (8 * Z.of_nat n') mod 256 :: be_bytes n' x
  end.

(** Message followed by 0x80, zero bytes up to 56 modulo 64, and the bit
    length on eight bytes. *)
Definition pad (msg : list Z) : list Z :=
  let len := Z.of_nat (List.length msg) in
  let zeros := Z.to_nat ((55 - len) mod 64) in
  msg ++ 0x80 :: List.repeat 0 zeros ++ be_bytes 8 (8 * len).

Fixpoint words_of (fuel : nat) (bs : list Z) : list Z :=
  match fuel, bs with
  | S fuel', b0 :: b1 :: b2 :: b3 :: rest =>
      (b0 * 2 ^ 24 + b1 * 2 ^ 16 + b2 * 2 ^ 8 + b3) :: words_of fuel' rest
  | _, _ => []
  end.

(** [extend k recent] adds [k] schedule words; [recent] holds the words
    computed so far, newest first. *)
Fixpoint extend (k : nat) (recent : list Z) : list Z :=
  match k with
  | O => recent
  | S k' =>
      let w i := List.nth i recent 0 in
      let new := add32 (add32 (sigma1 (w 1%nat)) (w 6%nat))
                       (add32 (sigma0 (w 14%nat)) (w 15%nat)) in
      extend k' (new :: recent)
  end.

Definition schedule (block : list Z) : list Z :=
  List.rev (extend 48 (List.rev block)).

Record regs := Regs { ra : Z; rb : Z; rc : Z; rd : Z;
                      re : Z; rf : Z; rg : Z; rh : Z }.

Definition round (s : regs) (kw : Z * Z) : regs :=
  let t1 := add32 (add32 (add32 (rh s) (Sigma1 (re s)))
                         (add32 (Ch (re s) (rf s) (rg s)) (fst kw)))
                  (snd kw) in
  let t2 := add32 (Sigma0 (ra s)) (Maj (ra s) (rb s) (rc s)) in
  Regs (add32 t1 t2) (ra s) (rb s) (rc s) (add32 (rd s) t1) (re s) (rf s) (rg s).

Definition compress (h : regs) (block : list Z) : regs :=
  let s := List.fold_left round (List.combine K (schedule block)) h in
  Regs (add32 (ra h) (ra s)) (add32 (rb h) (rb s))
       (add32 (rc h) (rc s)) (add32 (rd h) (rd s))
       (add32 (re h) (re s)) (add32 (rf h) (rf s))
       (add32 (rg h) (rg s)) (add32 (rh h) (rh s)).

Fixpoint blocks (fuel : nat) (ws : list Z) : list (list Z) :=
  match fuel, ws with
  | S fuel', _ :: _ => List.firstn 16 ws :: blocks fuel' (List.skipn 16 ws)
  | _, _ => []
  end.

Definition initial : regs :=
  let h i := List.nth i (List.map (root_fraction 2) primes) 0 in
  Regs (h 0%nat) (h 1%nat) (h 2%nat) (h 3%nat)
       (h 4%nat) (h 5%nat) (h 6%nat) (h 7%nat).

Definition digest (s : string) : regs :=
  let bs := pad (bytes_of s) in
  let ws := words_of (List.length bs) bs in
  List.fold_left compress (blocks (List.length ws) ws) initial.

Definition hex_digit (d : Z) : ascii :=
  List.nth (Z.to_nat d) (list_ascii_of_string "0123456789abcdef") "0"%char.

Fixpoint hex_nibbles (n : nat) (x : Z) : string :=
  match n with
  | O => EmptyString
  | S n' => String (hex_digit (Z.shiftr x (4 * Z.of_nat n') mod 16))
                   (hex_nibbles n' x)
  end.

Definition hexdigest (s : string) : string :=
  let r := digest s in
  String.concat ""
    (List.map (hex_nibbles 8)
       [ra r; rb r; rc r; rd r; re r; rf r; rg r; rh r]).

End SHA256.

(** ** Python values *)

(** Truthiness of a [str]: the empty string is the only falsy one. *)
Definition truthy (s : string) : bool :=
  match s with EmptyString => false | String _ _ => true end.

(** [all([...])] over strings. *)
Definition all (l : list string) : bool := forallb truthy l.

(** [s.zfill(w)] for the digit strings of [isoformat]. *)
Definition zfill (w : nat) (s : string) : string :=
  String.concat "" (List.repeat "0"%string (w - String.length s)) ++ s.

(** [datetime.date], with the order [max_value] compares dates by. *)
Record date := Date { year : nat; month : nat; day : nat }.

Definition date_isoformat (d : date) : string :=
  zfill 4 (pretty (year d)) ++ "-" ++ zfill 2 (pretty (month d))
    ++ "-" ++ zfill 2 (pretty (day d)).

Definition date_leb (d1 d2 : date) : bool :=
  if (year d1 <? year d2)%nat then true
  else if (year d2 <? year d1)%nat then false
  else if (month d1 <? month d2)%nat then true
  else if (month d2 <? month d1)%nat then false
  else (day d1 <=? day d2)%nat.

Inductive exn := TypeError | AttributeError | ValueError.

(** ** Records of the two JSON documents *)

Module User.
Record t := Build {
  name : string;
  email : string;
  phone : string;
  password : string;
  is_admin : bool;
  created_at : string
}.
End User.

Module Complaint.
Record t := Build {
  id : Z;
  user_email : string;
  user_name : string;
  title : string;
  category : string;
  description : string;
  location : string;
  incident_date : string;
  evidence_file : option string;
  status : string;
  department : option string;
  admin_notes : option string;
  created_at : string;
  updated_at : string
}.
End Complaint.

Definition STATUS_OPTIONS : list string :=
  ["Filed"; "Under Review"; "In Progress"; "Resolved"; "Rejected"]%string.

Definition DEPARTMENT_OPTIONS : list string :=
  [""; "Police Department"; "Court Services"; "Civic Services";
   "Anti-Corruption Bureau"]%string.

Definition CATEGORY_OPTIONS : list string :=
  [""; "Police"; "Court"; "Civic Body"; "Corruption"; "Public Services";
   "Other"]%string.

(** ** Credential store *)

Definition hash_password (password : string) : string :=
  SHA256.hexdigest password.

Definition ADMIN_EMAIL : string := "admin@justice.gov".

(** [init_system]; [now] is the reading of [datetime.now().isoformat()]. *)
Definition init_system (now : string) (users : gmap string User.t)
  : gmap string User.t :=
  match users !! ADMIN_EMAIL with
  | None =>
      <[ADMIN_EMAIL :=
          User.Build "Admin" ADMIN_EMAIL "0000000000"
                     (hash_password "admin123") true now]> users
  | Some _ => users
  end.

(** The submit branch of [login_page]. *)
Inductive login_result :=
  | LoginWelcome (user : User.t)
  | LoginInvalid.

Definition login_submit (users : gmap string User.t) (email password : string)
  : login_result :=
  match users !! email with
  | Some user =>
      if String.eqb (User.password user) (hash_password password)
      then LoginWelcome user
      else LoginInvalid
  | None => LoginInvalid
  end.

(** The submit branch of [register_page]. *)
Inductive register_result :=
  | RegisterFieldsRequired
  | RegisterPasswordMismatch
  | RegisterEmailTaken
  | RegisterSuccess.

Definition register_submit (users : gmap string User.t)
    (name email phone password confirm_password now : string)
  : register_result * gmap string User.t :=
  if negb (all [name; email; phone; password; confirm_password])
  then (RegisterFieldsRequired, users)
  else if negb (String.eqb password confirm_password)
  then (RegisterPasswordMismatch, users)
  else
    match users !! email with
    | Some _ => (RegisterEmailTaken, users)
    | None =>
        (RegisterSuccess,
         <[email := User.Build name email phone (hash_password password)
                               false now]> users)
    end.

(** ** Complaint store *)

Inductive result (A : Type) :=
  | Ok (a : A)
  | Raise (e : exn).
Arguments Ok {A} a.
Arguments Raise {A} e.

(** The widgets of [complaint_form] as read on submit; [evidence_file] is the
    uploaded file's name and content, when one was uploaded. *)
Record complaint_form := ComplaintForm {
  form_title : string;
  form_category : string;
  form_description : string;
  form_location : string;
  form_incident_date : date;
  form_evidence_file : option (string * string)
}.

Inductive file_result :=
  | FileFieldsRequired
  | FileSuccess (complaint_id : Z)
  | FileRaise (e : exn).

(** The submit branch of [file_complaint_page].  [now_created] and
    [now_updated] are the two successive readings of
    [datetime.now().isoformat()]; the evidence is written before the record is
    built, so it stays on disk when [current_user] is [None]. *)
Definition file_complaint_submit (current_user : option User.t)
    (form : complaint_form) (now_created now_updated : string)
    (complaints : list Complaint.t) (uploads : gmap string string)
  : file_result * list Complaint.t * gmap string string :=
  if negb (all [form_title form; form_category form;
                form_description form; form_location form])
  then (FileFieldsRequired, complaints, uploads)
  else
    let complaint_id := Z.of_nat (List.length complaints) + 1 in
    let '(evidence_filename, uploads') :=
      match form_evidence_file form with
      | Some (file_name, buffer) =>
          let evidence_filename := (pretty complaint_id ++ "_" ++ file_name)%string in
          (Some evidence_filename, <[evidence_filename := buffer]> uploads)
      | None => (None, uploads)
      end in
    match current_user with
    | None => (FileRaise TypeError, complaints, uploads')
    | Some user =>
        let new_complaint :=
          Complaint.Build complaint_id (User.email user) (User.name user)
            (form_title form) (form_category form) (form_description form)
            (form_location form) (date_isoformat (form_incident_date form))
            evidence_filename "Filed" None None now_created now_updated in
        (FileSuccess complaint_id, complaints ++ [new_complaint], uploads')
    end.

(** [sorted(l, key=key, reverse=True)]: a stable sort into descending key
    order; elements with equal keys keep their order in [l]. *)
Fixpoint insert_reverse {A : Type} (key : A -> string) (x : A) (l : list A)
  : list A :=
  match l with
  | [] => [x]
  | y :: l' =>
      if String.ltb (key x) (key y) then y :: insert_reverse key x l'
      else x :: y :: l'
  end.

Definition sorted_reverse {A : Type} (key : A -> string) (l : list A)
  : list A :=
  List.fold_right (insert_reverse key) [] l.

(** The complaints [my_complaints_page] shows, in display order. *)
Definition user_complaints (email : string) (complaints : list Complaint.t)
  : list Complaint.t :=
  List.filter (fun c => String.eqb (Complaint.user_email c) email) complaints.

Definition my_complaints_page (current_user : option User.t)
    (complaints : list Complaint.t) : result (list Complaint.t) :=
  match complaints, current_user with
  | [], _ => Ok []
  | _ :: _, None => Raise TypeError
  | _ :: _, Some user =>
      Ok (sorted_reverse Complaint.created_at
            (user_complaints (User.email user) complaints))
  end.

(** The complaints [admin_dashboard_page] shows, in display order. *)
Definition admin_dashboard_page (complaints : list Complaint.t)
  : list Complaint.t :=
  sorted_reverse Complaint.created_at complaints.

(** [next((c for c in complaints if c['id'] == selected), None)] *)
Definition get (selected : Z) (complaints : list Complaint.t)
  : option Complaint.t :=
  List.find (fun c => Z.eqb (Complaint.id c) selected) complaints.

(** [value if value else None] *)
Definition or_None (value : string) : option string :=
  if truthy value then Some value else None.

(** The four assignments to [complaints[i]]. *)
Definition assign_admin_fields (status : string)
    (department admin_notes : option string) (updated_at : string)
    (c : Complaint.t) : Complaint.t :=
  Complaint.Build (Complaint.id c) (Complaint.user_email c)
    (Complaint.user_name c) (Complaint.title c) (Complaint.category c)
    (Complaint.description c) (Complaint.location c)
    (Complaint.incident_date c) (Complaint.evidence_file c)
    status department admin_notes (Complaint.created_at c) updated_at.

(** [for i, c in enumerate(complaints): if c['id'] == cid: ...; break];
    [rest] is what is left to enumerate, [i] the index of its head. *)
Fixpoint update_loop (cid : Z) (assign : Complaint.t -> Complaint.t)
    (i : nat) (rest complaints : list Complaint.t) : list Complaint.t :=
  match rest with
  | [] => complaints
  | c :: rest' =>
      if Z.eqb (Complaint.id c) cid then alter assign i complaints
      else update_loop cid assign (S i) rest' complaints
  end.

Definition update_status (complaints : list Complaint.t) (cid : Z)
    (status department admin_notes now : string) : list Complaint.t :=
  update_loop cid
    (assign_admin_fields status (or_None department) (or_None admin_notes) now)
    0 complaints complaints.

(** [options.index(x)] raises [ValueError] when [x] is not an option. *)
Definition has_index (options : list string) (x : string) : bool :=
  existsb (String.eqb x) options.

Inductive manage_result :=
  | ManageNotFound
  | ManageRaise (e : exn)
  | ManageUpdated.

(** What [manage_complaint_page] renders before any button is read: the
    complaint is looked up and the two select boxes are built from its
    current values. *)
Definition manage_complaint_form (complaints : list Complaint.t)
    (selected : Z) : result (option Complaint.t) :=
  match get selected complaints with
  | None => Ok None
  | Some complaint =>
      if negb (has_index STATUS_OPTIONS (Complaint.status complaint))
      then Raise ValueError
      else if
        match Complaint.department complaint with
        | None => false
        | Some d => truthy d && negb (has_index DEPARTMENT_OPTIONS d)
        end
      then Raise ValueError
      else Ok (Some complaint)
  end.

(** [manage_complaint_page] on "Update Complaint". *)
Definition manage_complaint_submit (complaints : list Complaint.t)
    (selected : Z) (status department admin_notes now : string)
  : manage_result * list Complaint.t :=
  match manage_complaint_form complaints selected with
  | Raise e => (ManageRaise e, complaints)
  | Ok None => (ManageNotFound, complaints)
  | Ok (Some complaint) =>
      (ManageUpdated,
       update_status complaints (Complaint.id complaint)
         status department admin_notes now)
  end.

(** ** Session state and routing *)

Record World := Build_World {
  users : gmap string User.t;
  complaints : list Complaint.t;
  uploads : gmap string string;
  current_user : option User.t;
  page : string;
  selected_complaint : option Z
}.

Definition set_users (us : gmap string User.t) (w : World) : World :=
  Build_World us (complaints w) (uploads w) (current_user w) (page w)
              (selected_complaint w).
Definition set_store (cs : list Complaint.t) (ups : gmap string string)
    (w : World) : World :=
  Build_World (users w) cs ups (current_user w) (page w)
              (selected_complaint w).
Definition set_current_user (u : option User.t) (w : World) : World :=
  Build_World (users w) (complaints w) (uploads w) u (page w)
              (selected_complaint w).
Definition set_page (p : string) (w : World) : World :=
  Build_World (users w) (complaints w) (uploads w) (current_user w) p
              (selected_complaint w).
Definition set_selected_complaint (cid : Z) (w : World) : World :=
  Build_World (users w) (complaints w) (uploads w) (current_user w) (page w)
              (Some cid).

(** No file on disk and the session state of lines 84-87. *)
Definition fresh_session (us : gmap string User.t) (cs : list Complaint.t)
    (ups : gmap string string) : World :=
  Build_World us cs ups None "login" None.

Definition initial_world : World := fresh_session ∅ [] ∅.

(** The page functions [main] dispatches to. *)
Inductive view :=
  | LoginPage | RegisterPage | DashboardPage | FileComplaintPage
  | MyComplaintsPage | ViewComplaintPage | AdminDashboardPage
  | ManageComplaintPage.

(** The [if]/[elif] chain of [main]; [None] when no branch matches. *)
Definition route (page : string) : option view :=
  if String.eqb page "login" then Some LoginPage
  else if String.eqb page "register" then Some RegisterPage
  else if String.eqb page "dashboard" then Some DashboardPage
  else if String.eqb page "file_complaint" then Some FileComplaintPage
  else if String.eqb page "my_complaints" then Some MyComplaintsPage
  else if String.eqb page "view_complaint" then Some ViewComplaintPage
  else if String.eqb page "admin_dashboard" then Some AdminDashboardPage
  else if String.eqb page "manage_complaint" then Some ManageComplaintPage
  else None.

(** What the user did in the browser before a script run: the one button
    that reads [True] in that run, with the values of its form. *)
Inductive event :=
  | NoClick
  | SidebarDashboard | SidebarAdminPanel | SidebarFileComplaint
  | SidebarMyComplaints | SidebarLogout
  | LoginSubmit (email password : string)
  | LoginRegisterHere
  | RegisterSubmit (name email phone password confirm_password : string)
  | RegisterLoginHere
  | DashboardManageAll | DashboardFileNew | DashboardViewMine
  | FileSubmit (form : complaint_form)
  | FileCancel
  | MyComplaintsFileFirst
  | MyComplaintsViewDetails (cid : Z)
  | ViewBack
  | AdminManage (cid : Z)
  | ManageSubmit (status department admin_notes : string)
  | ManageBack.

(** What a run reads from outside: the successive readings of
    [datetime.now().isoformat()] and [date.today()]. *)
Record env := Env { now : nat -> string; today : date }.

(** A select box returns one of its options and the date input a date up to
    its [max_value]. *)
Definition widget_values_ok (en : env) (e : event) : bool :=
  match e with
  | FileSubmit form =>
      has_index CATEGORY_OPTIONS (form_category form)
      && date_leb (form_incident_date form) (today en)
  | ManageSubmit status department _ =>
      has_index STATUS_OPTIONS status
      && has_index DEPARTMENT_OPTIONS department
  | _ => true
  end.

(** [sidebar()]: [Some] when one of its buttons fired and called
    [st.rerun()]. *)
Definition sidebar (user : User.t) (w : World) (e : event) : option World :=
  match e with
  | SidebarDashboard => Some (set_page "dashboard" w)
  | SidebarAdminPanel =>
      if User.is_admin user then Some (set_page "admin_dashboard" w) else None
  | SidebarFileComplaint =>
      if User.is_admin user then None else Some (set_page "file_complaint" w)
  | SidebarMyComplaints =>
      if User.is_admin user then None else Some (set_page "my_complaints" w)
  | SidebarLogout => Some (set_page "login" (set_current_user None w))
  | _ => None
  end.

Definition shown_id (cid : Z) (shown : list Complaint.t) : bool :=
  existsb (fun c => Z.eqb (Complaint.id c) cid) shown.

(** One page function, up to its [st.rerun()] or its end; a run that raises
    keeps what was written before. *)
Definition run_page (en : env) (v : view) (w : World) (e : event) : World :=
  match v with
  | LoginPage =>
      match e with
      | LoginSubmit email password =>
          match login_submit (users w) email password with
          | LoginWelcome user =>
              set_page "dashboard" (set_current_user (Some user) w)
          | LoginInvalid => w
          end
      | LoginRegisterHere => set_page "register" w
      | _ => w
      end
  | RegisterPage =>
      match e with
      | RegisterSubmit name email phone password confirm_password =>
          match register_submit (users w) name email phone password
                                confirm_password (now en 1%nat) with
          | (RegisterSuccess, users') => set_page "login" (set_users users' w)
          | _ => w
          end
      | RegisterLoginHere => set_page "login" w
      | _ => w
      end
  | DashboardPage =>
      match current_user w with
      | None => w
      | Some user =>
          match e with
          | DashboardManageAll =>
              if User.is_admin user then set_page "admin_dashboard" w else w
          | DashboardFileNew =>
              if User.is_admin user then w else set_page "file_complaint" w
          | DashboardViewMine =>
              if User.is_admin user then w else set_page "my_complaints" w
          | _ => w
          end
      end
  | FileComplaintPage =>
      match e with
      | FileCancel => set_page "dashboard" w
      | FileSubmit form =>
          match file_complaint_submit (current_user w) form
                  (now en 1%nat) (now en 2%nat) (complaints w) (uploads w) with
          | (FileSuccess _, cs, ups) =>
              set_page "my_complaints" (set_store cs ups w)
          | (_, cs, ups) => set_store cs ups w
          end
      | _ => w
      end
  | MyComplaintsPage =>
      match my_complaints_page (current_user w) (complaints w) with
      | Raise _ => w
      | Ok [] =>
          match e with
          | MyComplaintsFileFirst => set_page "file_complaint" w
          | _ => w
          end
      | Ok shown =>
          match e with
          | MyComplaintsViewDetails cid =>
              if shown_id cid shown
              then set_page "view_complaint" (set_selected_complaint cid w)
              else w
          | _ => w
          end
      end
  | ViewComplaintPage =>
      match selected_complaint w with
      | None => w
      | Some selected =>
          match get selected (complaints w), e with
          | Some _, ViewBack => set_page "my_complaints" w
          | _, _ => w
          end
      end
  | AdminDashboardPage =>
      match e with
      | AdminManage cid =>
          if shown_id cid (admin_dashboard_page (complaints w))
          then set_page "manage_complaint" (set_selected_complaint cid w)
          else w
      | _ => w
      end
  | ManageComplaintPage =>
      match selected_complaint w with
      | None => w
      | Some selected =>
          match e with
          | ManageBack =>
              match manage_complaint_form (complaints w) selected with
              | Ok (Some _) => set_page "admin_dashboard" w
              | _ => w
              end
          | ManageSubmit status department admin_notes =>
              match manage_complaint_submit (complaints w) selected
                      status department admin_notes (now en 1%nat) with
              | (ManageUpdated, cs) =>
                  set_page "admin_dashboard" (set_store cs (uploads w) w)
              | _ => w
              end
          | _ => w
          end
      end
  end.

(** [main()]: one script run. *)
Definition main (en : env) (w : World) (e : event) : World :=
  let w := set_users (init_system (now en 0%nat) (users w)) w in
  match
    match current_user w with
    | Some user => sidebar user w e
    | None => None
    end
  with
  | Some w' => w'
  | None =>
      match route (page w) with
      | Some v => run_page en v w e
      | None => w
      end
  end.

(** The worlds the application can be in: a first start on an empty data
    directory, then script runs, and new browser sessions over the same
    files. *)
Inductive reachable : World -> Prop :=
  | reachable_initial : reachable initial_world
  | reachable_run (en : env) (w : World) (e : event) :
      reachable w -> widget_values_ok en e = true -> reachable (main en w e)
  | reachable_session (w : World) :
      reachable w ->
      reachable (fresh_session (users w) (complaints w) (uploads w)).

(** ** Predicates and sample data of the statements below *)

(** [x] is shown before [y]: its key is not smaller. *)
Definition key_descending {A : Type} (key : A -> string) (x y : A) : Prop :=
  String.leb (key y) (key x) = true.

(** The record [init_system] writes, with the digest spelled out. *)
Definition default_admin (now : string) : User.t :=
  User.Build "Admin" ADMIN_EMAIL "0000000000"
    "240be518fabd2724ddb6f04eeb1da5967448d7e831c08c8fa822809f74c720a9"
    true now.

(** A session without a user is on the login or the register page. *)
Definition session_ok (w : World) : Prop :=
  current_user w = None ->
  page w = "login"%string \/ page w = "register"%string.

(** The values the select boxes of [manage_complaint_page] can show. *)
Definition complaint_ok (c : Complaint.t) : Prop :=
  has_index STATUS_OPTIONS (Complaint.status c) = true
  /\ match Complaint.department c with
     | None => True
     | Some d => truthy d = true /\ has_index DEPARTMENT_OPTIONS d = true
     end.

Definition store_ok (w : World) : Prop := Forall complaint_ok (complaints w).

Definition three_complaints : list Complaint.t :=
  [ Complaint.Build 1 "asha@example.org" "Asha" "Pothole" "Civic Body"
      "Large pothole on Main St" "Main St" "2024-05-01" None "Filed"
      None None "2024-05-02T08:30:00.000120" "2024-05-02T08:30:00.000131";
    Complaint.Build 2 "ben@example.org" "Ben" "Bribe" "Corruption"
      "Clerk asked for money" "Town hall" "2024-05-03"
      (Some "2_receipt.pdf") "Under Review" (Some "Anti-Corruption Bureau")
      (Some "Called the clerk") "2024-05-04T11:00:00" "2024-05-05T09:00:00";
    Complaint.Build 3 "asha@example.org" "Asha" "Noise" "Police"
      "Loud music every night" "Elm St" "2024-05-06" None "Filed"
      None None "2024-05-06T23:10:00" "2024-05-06T23:10:00.000009" ]%string.

Definition sample_env : env :=
  Env (fun k => match k with
                | O => "2024-05-02T08:29:59.500000"
                | 1%nat => "2024-05-02T08:30:00.000120"
                | _ => "2024-05-02T08:30:00.000131"
                end%string)
      (Date 2024 5 2).

(** A user registers, logs in and files a complaint; then the administrator
    logs in and resolves it. *)
Definition sample_filing : list event :=
  [ LoginRegisterHere;
    RegisterSubmit "Asha" "asha@example.org" "5550100" "s3cret!" "s3cret!";
    LoginSubmit "asha@example.org" "s3cret!";
    DashboardFileNew;
    FileSubmit (ComplaintForm "Pothole" "Civic Body"
                  "Large pothole on Main St" "Main St" (Date 2024 5 1) None) ]%string.

Definition sample_resolution : list event :=
  [ SidebarLogout;
    LoginSubmit "admin@justice.gov" "admin123";
    DashboardManageAll;
    AdminManage 1;
    ManageSubmit "Resolved" "Civic Services" "Filled on 2 May" ]%string.

Definition runs (en : env) (es : list event) (w : World) : World :=
  List.fold_left (main en) es w.

(** ** Statistics, badges and the detail page *)

Definition count_status (statuses : list string) (complaints : list Complaint.t)
  : nat :=
  List.length
    (List.filter (fun c => existsb (String.eqb (Complaint.status c)) statuses)
       complaints).

(** [get_complaint_stats(complaints, user_email=None, is_admin=False)] *)
Definition get_complaint_stats (complaints : list Complaint.t)
    (user_email : option string) (is_admin : bool) : nat * nat * nat :=
  let complaints :=
    match user_email with
    | Some email =>
        if truthy email && negb is_admin then user_complaints email complaints
        else complaints
    | None => complaints
    end in
  (List.length complaints,
   count_status ["Filed"; "Under Review"; "In Progress"]%string complaints,
   count_status ["Resolved"]%string complaints).

(** The three numbers [dashboard_page] shows. *)
Definition dashboard_page (current_user : option User.t)
    (complaints : list Complaint.t) : result (nat * nat * nat) :=
  match current_user with
  | None => Raise TypeError
  | Some user =>
      Ok (get_complaint_stats complaints (Some (User.email user))
            (User.is_admin user))
  end.

(** The four numbers [admin_dashboard_page] shows: total, filed, in
    progress, resolved. *)
Definition admin_dashboard_stats (complaints : list Complaint.t)
  : nat * nat * nat * nat :=
  (List.length complaints,
   count_status ["Filed"]%string complaints,
   count_status ["In Progress"]%string complaints,
   count_status ["Resolved"]%string complaints).

(** [str.lower()] and [str.replace(' ', '-')] on ASCII text, which the status
    values are. *)
Definition lower_char (c : ascii) : ascii :=
  let n := N_of_ascii c in
  if ((65 <=? n) && (n <=? 90))%N then ascii_of_N (n + 32) else c.

Fixpoint lower (s : string) : string :=
  match s with
  | EmptyString => EmptyString
  | String c s' => String (lower_char c) (lower s')
  end.

Fixpoint replace_char (old new : ascii) (s : string) : string :=
  match s with
  | EmptyString => EmptyString
  | String c s' =>
      String (if Ascii.eqb c old then new else c) (replace_char old new s')
  end.

Definition status_class (status : string) : string :=
  replace_char " " "-" (lower status).

Definition double_quote : string := String (ascii_of_nat 34) EmptyString.

Definition get_status_badge (status : string) : string :=
  ("<span class=" ++ double_quote ++ "status-badge status-"
     ++ status_class status ++ double_quote ++ ">" ++ status ++ "</span>")%string.

(** The [status-...] classes the style sheet of lines 67-71 gives a colour. *)
Definition STATUS_STYLES : list string :=
  ["status-filed"; "status-review"; "status-progress"; "status-resolved";
   "status-rejected"]%string.

(** The complaint [view_complaint_page] shows; [Ok None] is "Complaint not
    found!".  The generator reads [st.session_state.selected_complaint] once
    per complaint, so an empty store never reads it. *)
Definition view_complaint_page (selected_complaint : option Z)
    (complaints : list Complaint.t) : result (option Complaint.t) :=
  match complaints, selected_complaint with
  | [], _ => Ok None
  | _ :: _, None => Raise AttributeError
  | _ :: _, Some selected => Ok (get selected complaints)
  end.

(** ** What one script run can do

    [outcome en w w'] lists the ways [main] changes the world [w] it finds
    after [init_system]: each button, with the page it is on and what is
    read before it. *)
Inductive outcome (en : env) (w : World) : World -> Prop :=
  | outcome_none : outcome en w w
  | outcome_sidebar_dashboard (user : User.t) :
      current_user w = Some user -> outcome en w (set_page "dashboard" w)
  | outcome_sidebar_admin (user : User.t) :
      current_user w = Some user -> User.is_admin user = true ->
      outcome en w (set_page "admin_dashboard" w)
  | outcome_sidebar_file (user : User.t) :
      current_user w = Some user -> User.is_admin user = false ->
      outcome en w (set_page "file_complaint" w)
  | outcome_sidebar_mine (user : User.t) :
      current_user w = Some user -> User.is_admin user = false ->
      outcome en w (set_page "my_complaints" w)
  | outcome_logout (user : User.t) :
      current_user w = Some user ->
      outcome en w (set_page "login" (set_current_user None w))
  | outcome_login (email password : string) (user : User.t) :
      route (page w) = Some LoginPage ->
      login_submit (users w) email password = LoginWelcome user ->
      outcome en w (set_page "dashboard" (set_current_user (Some user) w))
  | outcome_register_here :
      route (page w) = Some LoginPage -> outcome en w (set_page "register" w)
  | outcome_register (name email phone password confirm_password : string)
      (users' : gmap string User.t) :
      route (page w) = Some RegisterPage ->
      register_submit (users w) name email phone password confirm_password
        (now en 1%nat) = (RegisterSuccess, users') ->
      outcome en w (set_page "login" (set_users users' w))
  | outcome_login_here :
      route (page w) = Some RegisterPage -> outcome en w (set_page "login" w)
  | outcome_dashboard_admin (user : User.t) :
      route (page w) = Some DashboardPage ->
      current_user w = Some user -> User.is_admin user = true ->
      outcome en w (set_page "admin_dashboard" w)
  | outcome_dashboard_file (user : User.t) :
      route (page w) = Some DashboardPage ->
      current_user w = Some user -> User.is_admin user = false ->
      outcome en w (set_page "file_complaint" w)
  | outcome_dashboard_mine (user : User.t) :
      route (page w) = Some DashboardPage ->
      current_user w = Some user -> User.is_admin user = false ->
      outcome en w (set_page "my_complaints" w)
  | outcome_file_cancel :
      route (page w) = Some FileComplaintPage ->
      outcome en w (set_page "dashboard" w)
  | outcome_filed (form : complaint_form) (cid : Z) (cs : list Complaint.t)
      (ups : gmap string string) :
      route (page w) = Some FileComplaintPage ->
      file_complaint_submit (current_user w) form (now en 1%nat)
        (now en 2%nat) (complaints w) (uploads w) = (FileSuccess cid, cs, ups) ->
      outcome en w (set_page "my_complaints" (set_store cs ups w))
  | outcome_not_filed (ups : gmap string string) :
      route (page w) = Some FileComplaintPage ->
      outcome en w (set_store (complaints w) ups w)
  | outcome_file_first :
      route (page w) = Some MyComplaintsPage ->
      my_complaints_page (current_user w) (complaints w) = Ok [] ->
      outcome en w (set_page "file_complaint" w)
  | outcome_view_details (cid : Z) (shown : list Complaint.t) :
      route (page w) = Some MyComplaintsPage ->
      my_complaints_page (current_user w) (complaints w) = Ok shown ->
      shown_id cid shown = true ->
      outcome en w (set_page "view_complaint" (set_selected_complaint cid w))
  | outcome_view_back :
      route (page w) = Some ViewComplaintPage ->
      outcome en w (set_page "my_complaints" w)
  | outcome_manage (cid : Z) :
      route (page w) = Some AdminDashboardPage ->
      shown_id cid (admin_dashboard_page (complaints w)) = true ->
      outcome en w (set_page "manage_complaint" (set_selected_complaint cid w))
  | outcome_manage_back :
      route (page w) = Some ManageComplaintPage ->
      outcome en w (set_page "admin_dashboard" w)
  | outcome_updated (selected : Z) (status department admin_notes : string)
      (cs : list Complaint.t) :
      route (page w) = Some ManageComplaintPage ->
      selected_complaint w = Some selected ->
      manage_complaint_submit (complaints w) selected status department
        admin_notes (now en 1%nat) = (ManageUpdated, cs) ->
      outcome en w (set_page "admin_dashboard" (set_store cs (uploads w) w)).

(** ** Invariants of the reachable worlds *)

(** Every record sits under its own, non-empty email, and the administrator
    flag is set on the record of [ADMIN_EMAIL] and on no other. *)
Definition users_ok (us : gmap string User.t) : Prop :=
  forall (k : string) (u : User.t),
    us !! k = Some u ->
    User.email u = k /\ k <> ""%string
    /\ (User.is_admin u = true <-> k = ADMIN_EMAIL).

(** The complaint at index [i] has id [i + 1]. *)
Definition ids_ok (cs : list Complaint.t) : Prop :=
  forall (i : nat) (c : Complaint.t),
    cs !! i = Some c -> Complaint.id c = Z.of_nat i + 1.

(** Every complaint was filed by a registered user who is no administrator,
    and carries that user's name. *)
Definition owners_ok (us : gmap string User.t) (cs : list Complaint.t) : Prop :=
  forall c : Complaint.t,
    In c cs ->
    exists u : User.t,
      us !! Complaint.user_email c = Some u
      /\ User.name u = Complaint.user_name c
      /\ User.is_admin u = false.

(** The page of a session fits the role of its user. *)
Definition role_ok (w : World) : Prop :=
  match route (page w) with
  | Some LoginPage | Some RegisterPage => True
  | Some DashboardPage => is_Some (current_user w)
  | Some FileComplaintPage | Some MyComplaintsPage =>
      exists u, current_user w = Some u /\ User.is_admin u = false
  | Some ViewComplaintPage =>
      exists u selected c,
        current_user w = Some u /\ User.is_admin u = false
        /\ selected_complaint w = Some selected
        /\ get selected (complaints w) = Some c
        /\ Complaint.user_email c = User.email u
  | Some AdminDashboardPage =>
      exists u, current_user w = Some u /\ User.is_admin u = true
  | Some ManageComplaintPage =>
      exists u selected c,
        current_user w = Some u /\ User.is_admin u = true
        /\ selected_complaint w = Some selected
        /\ get selected (complaints w) = Some c
  | None => False
  end.

Record world_ok (w : World) : Prop := WorldOk {
  ok_users : users_ok (users w);
  ok_session :
    forall u, current_user w = Some u -> users w !! User.email u = Some u;
  ok_ids : ids_ok (complaints w);
  ok_owners : owners_ok (users w) (complaints w);
  ok_role : role_ok w
}.

(** Same id, owner and filing time. *)
Definition same_filing (c c' : Complaint.t) : Prop :=
  Complaint.id c = Complaint.id c'
  /\ Complaint.user_email c = Complaint.user_email c'
  /\ Complaint.created_at c = Complaint.created_at c'.

(** Only the digits of [hexdigest]. *)
Definition hex_string (s : string) : Prop :=
  Forall (fun c => In c (list_ascii_of_string "0123456789abcdef"))
    (list_ascii_of_string s).

(** * Properties *)

(** ** SHA-256 test vectors *)

Example sha256_empty :
  SHA256.hexdigest ""
  = "e3b0c44298fc1c149afbf4c8996fb92427ae41e4649b934ca495991b7852b855"%string.
Proof. vm_compute. reflexivity. Qed.

Example sha256_abc :
  SHA256.hexdigest "abc"
  = "ba7816bf8f01cfea414140de5dae2223b00361a396177a9cb410ff61f20015ad"%string.
Proof. vm_compute. reflexivity. Qed.

Example sha256_two_blocks :
  SHA256.hexdigest "aaaaaaaaaaaaaaaaaaaaaaaaaaaaaaaaaaaaaaaaaaaaaaaaaaaaaaaa"
  = "b35439a4ac6f0948b6d6f9e3c6af0f5f590ce20f1bde7090ef7970686ec6738a"%string.
Proof. vm_compute. reflexivity. Qed.

(** ** Python values *)

Lemma truthy_spec (s : string) : truthy s = true <-> s <> ""%string.
Proof. destruct s; simpl; split; intros; congruence. Qed.

Lemma truthy_false (s : string) : truthy s = false <-> s = ""%string.
Proof. destruct s; simpl; split; intros; congruence. Qed.

Lemma or_None_empty : or_None "" = None.
Proof. reflexivity. Qed.

Lemma or_None_verbatim (s : string) : s <> ""%string -> or_None s = Some s.
Proof. intros H. unfold or_None. apply truthy_spec in H. now rewrite H. Qed.

Lemma or_None_never_empty (s : string) : or_None s <> Some ""%string.
Proof. destruct s; cbv; discriminate. Qed.

(** ** Credential store *)

Lemma hash_default_password :
  hash_password "admin123"
  = "240be518fabd2724ddb6f04eeb1da5967448d7e831c08c8fa822809f74c720a9"%string.
Proof. vm_compute. reflexivity. Qed.

Lemma init_system_creates (now : string) (users : gmap string User.t) :
  users !! ADMIN_EMAIL = None ->
  init_system now users = <[ADMIN_EMAIL := default_admin now]> users.
Proof.
  intros H. unfold init_system. rewrite H. unfold default_admin.
  now rewrite hash_default_password.
Qed.

Lemma init_system_keeps (now : string) (users : gmap string User.t) :
  is_Some (users !! ADMIN_EMAIL) -> init_system now users = users.
Proof. intros [u H]. unfold init_system. now rewrite H. Qed.

Lemma init_system_idempotent (now now' : string) (users : gmap string User.t) :
  init_system now' (init_system now users) = init_system now users.
Proof.
  apply init_system_keeps. unfold init_system.
  destruct (users !! ADMIN_EMAIL) eqn:H; [rewrite H; eauto|].
  rewrite lookup_insert_eq. eauto.
Qed.

Lemma init_system_lookup_other (now email : string) :
  email <> ADMIN_EMAIL -> init_system now ∅ !! email = None.
Proof.
  intros H. rewrite init_system_creates by apply lookup_empty.
  rewrite lookup_insert_ne by congruence. apply lookup_empty.
Qed.

Lemma init_system_lookup_admin (now : string) :
  init_system now ∅ !! ADMIN_EMAIL = Some (default_admin now).
Proof.
  rewrite init_system_creates by apply lookup_empty.
  apply lookup_insert_eq.
Qed.

Lemma login_submit_welcome (users : gmap string User.t) (email password : string)
    (user : User.t) :
  users !! email = Some user ->
  User.password user = hash_password password ->
  login_submit users email password = LoginWelcome user.
Proof.
  intros Hu Hp. unfold login_submit. rewrite Hu, Hp.
  now rewrite String.eqb_refl.
Qed.

Lemma login_submit_wrong_hash (users : gmap string User.t)
    (email password : string) (user : User.t) :
  users !! email = Some user ->
  hash_password password <> User.password user ->
  login_submit users email password = LoginInvalid.
Proof.
  intros Hu Hp. unfold login_submit. rewrite Hu.
  destruct (String.eqb_spec (User.password user) (hash_password password));
    congruence.
Qed.

Lemma register_submit_stores (users : gmap string User.t)
    (name email phone password now : string) :
  users !! email = None ->
  all [name; email; phone; password; password] = true ->
  register_submit users name email phone password password now
  = (RegisterSuccess,
     <[email := User.Build name email phone (hash_password password) false now]>
       users).
Proof.
  intros Hfresh Hall. unfold register_submit.
  now rewrite Hall, String.eqb_refl, Hfresh.
Qed.

Lemma register_submit_keeps_table (users : gmap string User.t)
    (name email phone password confirm_password now : string) :
  is_Some (users !! email) ->
  snd (register_submit users name email phone password confirm_password now)
  = users.
Proof.
  intros [u Hu]. unfold register_submit. rewrite Hu.
  destruct (all _); [|reflexivity].
  destruct (String.eqb _ _); reflexivity.
Qed.

(** C1, as the claim states it, fails on an empty email: the empty email is
    not in the table, name, phone and password are non-empty and the
    confirmation equals the password, yet nothing is stored and the
    following login is refused. *)
Lemma register_empty_email_refused :
  let users := init_system "2024-05-01T09:00:00" ∅ in
  users !! ""%string = None
  /\ register_submit users "Asha" "" "5550100" "s3cret!" "s3cret!"
       "2024-05-01T10:00:00"
     = (RegisterFieldsRequired, users)
  /\ login_submit users "" "s3cret!" = LoginInvalid.
Proof.
  cbv zeta.
  assert (H : init_system "2024-05-01T09:00:00" ∅ !! ""%string = None)
    by (apply init_system_lookup_other; discriminate).
  split; [exact H|]. split; [reflexivity|].
  unfold login_submit. now rewrite H.
Qed.

(** C1 (amended): for every non-empty email not yet in the user table and
    every non-empty name, phone and password confirmed by an equal
    confirmation, the registration stores the new record (hash of the
    password, not an administrator); logging in with that email and password
    then returns that record, and logging in with that email and any
    password whose hash differs from the stored one is refused. *)
Theorem register_then_login (users : gmap string User.t)
    (name email phone password now : string) :
  users !! email = None ->
  name <> ""%string -> email <> ""%string -> phone <> ""%string ->
  password <> ""%string ->
  exists user users',
    register_submit users name email phone password password now
    = (RegisterSuccess, users')
    /\ users' = <[email := user]> users
    /\ user = User.Build name email phone (hash_password password) false now
    /\ login_submit users' email password = LoginWelcome user
    /\ forall wrong,
         hash_password wrong <> User.password user ->
         login_submit users' email wrong = LoginInvalid.
Proof.
  intros Hfresh Hn He Hp Hpw.
  eexists _, _. split; [|split; [reflexivity|split; [reflexivity|]]].
  - apply register_submit_stores; [assumption|].
    simpl. apply truthy_spec in Hn, He, Hp, Hpw.
    now rewrite Hn, He, Hp, Hpw.
  - split.
    + apply login_submit_welcome with (user := User.Build name email phone
        (hash_password password) false now);
        [apply lookup_insert_eq | reflexivity].
    + intros wrong Hwrong.
      eapply login_submit_wrong_hash; [apply lookup_insert_eq | exact Hwrong].
Qed.

Lemma register_then_login_witness :
  exists user users',
    register_submit (init_system "2024-05-01T09:00:00" ∅)
      "Asha" "asha@example.org" "5550100" "s3cret!" "s3cret!"
      "2024-05-01T10:00:00"
    = (RegisterSuccess, users')
    /\ users' = <["asha@example.org"%string := user]>
                  (init_system "2024-05-01T09:00:00" ∅)
    /\ user = User.Build "Asha" "asha@example.org" "5550100"
                (hash_password "s3cret!") false "2024-05-01T10:00:00"
    /\ login_submit users' "asha@example.org" "s3cret!" = LoginWelcome user
    /\ forall wrong,
         hash_password wrong <> User.password user ->
         login_submit users' "asha@example.org" wrong = LoginInvalid.
Proof.
  apply (register_then_login (init_system "2024-05-01T09:00:00" ∅)
           "Asha" "asha@example.org" "5550100" "s3cret!"
           "2024-05-01T10:00:00");
    [apply init_system_lookup_other; discriminate | discriminate..].
Defined.

(** C8, as the claim states it, fails when another field is missing: the
    email is already registered, but the required-field check comes first and
    its error is the one reported. *)
Lemma register_duplicate_reports_missing_field :
  let users := init_system "2024-05-01T09:00:00" ∅ in
  is_Some (users !! ADMIN_EMAIL)
  /\ register_submit users "" ADMIN_EMAIL "5550100" "s3cret!" "s3cret!"
       "2024-05-01T10:00:00"
     = (RegisterFieldsRequired, users)
  /\ RegisterFieldsRequired <> RegisterEmailTaken.
Proof.
  cbv zeta. split; [|split].
  - rewrite init_system_lookup_admin. eauto.
  - reflexivity.
  - discriminate.
Qed.

(** C8 (amended): for every user table already containing the given email,
    the registration fails and the user table is unchanged, so the existing
    record is never overwritten; the error is the duplicate-email one
    whenever the five form fields are non-empty and the password equals its
    confirmation; otherwise it is the required-fields error when a field is
    empty, and the password-mismatch error when the fields are filled and
    the confirmation differs: these two checks come first. *)
Theorem register_duplicate_email (users : gmap string User.t)
    (name email phone password confirm_password now : string)
    (existing : User.t) :
  users !! email = Some existing ->
  let r := register_submit users name email phone password confirm_password
             now in
  fst r <> RegisterSuccess
  /\ snd r = users
  /\ snd r !! email = Some existing
  /\ (all [name; email; phone; password; confirm_password] = true ->
      password = confirm_password ->
      fst r = RegisterEmailTaken)
  /\ (all [name; email; phone; password; confirm_password] = false ->
      fst r = RegisterFieldsRequired)
  /\ (all [name; email; phone; password; confirm_password] = true ->
      password <> confirm_password ->
      fst r = RegisterPasswordMismatch).
Proof.
  intros Hu. cbv zeta. unfold register_submit. rewrite Hu.
  destruct (all _) eqn:Hall; simpl.
  - destruct (String.eqb_spec password confirm_password); simpl;
      repeat split; try discriminate; try assumption; try reflexivity;
      intros; congruence.
  - repeat split; try discriminate; try assumption; intros; congruence.
Qed.

Lemma register_duplicate_email_witness :
  let users := init_system "2024-05-01T09:00:00" ∅ in
  (fst (register_submit users "Mallory" ADMIN_EMAIL "5550100" "hunter2"
          "hunter2" "2024-05-01T10:00:00") = RegisterEmailTaken
   /\ snd (register_submit users "Mallory" ADMIN_EMAIL "5550100" "hunter2"
             "hunter2" "2024-05-01T10:00:00") = users
   /\ snd (register_submit users "Mallory" ADMIN_EMAIL "5550100" "hunter2"
             "hunter2" "2024-05-01T10:00:00") !! ADMIN_EMAIL
      = Some (default_admin "2024-05-01T09:00:00"))
  /\ fst (register_submit users "" ADMIN_EMAIL "5550100" "hunter2"
            "hunter2" "2024-05-01T10:00:00") = RegisterFieldsRequired
  /\ fst (register_submit users "Mallory" ADMIN_EMAIL "5550100" "hunter2"
            "hunter3" "2024-05-01T10:00:00") = RegisterPasswordMismatch.
Proof.
  cbv zeta.
  pose proof (init_system_lookup_admin "2024-05-01T09:00:00") as Hadmin.
  split; [|split].
  - destruct (register_duplicate_email (init_system "2024-05-01T09:00:00" ∅)
                "Mallory" ADMIN_EMAIL "5550100" "hunter2" "hunter2"
                "2024-05-01T10:00:00" _ Hadmin)
      as (_ & Hsame & Hkept & Hkind & _).
    split; [apply Hkind; reflexivity|]. split; assumption.
  - destruct (register_duplicate_email (init_system "2024-05-01T09:00:00" ∅)
                "" ADMIN_EMAIL "5550100" "hunter2" "hunter2"
                "2024-05-01T10:00:00" _ Hadmin)
      as (_ & _ & _ & _ & Hmissing & _).
    apply Hmissing. reflexivity.
  - destruct (register_duplicate_email (init_system "2024-05-01T09:00:00" ∅)
                "Mallory" ADMIN_EMAIL "5550100" "hunter2" "hunter3"
                "2024-05-01T10:00:00" _ Hadmin)
      as (_ & _ & _ & _ & _ & Hmismatch).
    apply Hmismatch; [reflexivity | discriminate].
Defined.

(** C9: on an empty user table [init_system] stores, under
    admin@justice.gov, an administrator record holding the SHA-256 hash of
    "admin123", and a login with these credentials then succeeds; on a table
    that already has a record under that email [init_system] changes nothing,
    whatever password hash that record holds. *)
Theorem init_system_default_admin (now : string) :
  init_system now ∅ = {[ADMIN_EMAIL := default_admin now]}
  /\ User.is_admin (default_admin now) = true
  /\ User.password (default_admin now) = hash_password "admin123"
  /\ login_submit (init_system now ∅) "admin@justice.gov" "admin123"
     = LoginWelcome (default_admin now)
  /\ forall (users : gmap string User.t) (existing : User.t),
       users !! ADMIN_EMAIL = Some existing ->
       init_system now users = users
       /\ init_system now users !! ADMIN_EMAIL = Some existing.
Proof.
  assert (Hinit : init_system now ∅ = {[ADMIN_EMAIL := default_admin now]}).
  { rewrite init_system_creates by apply lookup_empty.
    apply insert_empty. }
  split; [exact Hinit|]. split; [reflexivity|].
  split; [symmetry; apply hash_default_password|]. split.
  - rewrite Hinit. apply login_submit_welcome.
    + apply lookup_singleton_eq.
    + symmetry. apply hash_default_password.
  - intros users existing H.
    rewrite init_system_keeps by eauto. auto.
Qed.

Lemma init_system_default_admin_witness :
  let rotated := User.Build "Admin" ADMIN_EMAIL "0000000000"
                   (hash_password "hunter2") true "2024-05-01T09:00:00" in
  init_system "2024-06-01T08:00:00" {[ADMIN_EMAIL := rotated]}
  = {[ADMIN_EMAIL := rotated]}
  /\ login_submit (init_system "2024-06-01T08:00:00" {[ADMIN_EMAIL := rotated]})
       ADMIN_EMAIL "admin123" = LoginInvalid.
Proof.
  cbv zeta.
  destruct (init_system_default_admin "2024-06-01T08:00:00")
    as (_ & _ & _ & _ & Hkeeps).
  split.
  - eapply Hkeeps. apply lookup_singleton_eq.
  - rewrite init_system_keeps by (rewrite lookup_singleton_eq; eauto).
    eapply login_submit_wrong_hash; [apply lookup_singleton_eq|].
    vm_compute. discriminate.
Defined.

(** ** Order of [str] keys and [sorted(..., reverse=True)] *)

Section string_order.

Lemma ascii_compare_lt_trans (a b c : ascii) :
  Ascii.compare a b = Lt -> Ascii.compare b c = Lt -> Ascii.compare a c = Lt.
Proof.
  unfold Ascii.compare. rewrite !N.compare_lt_iff. apply N.lt_trans.
Qed.

Lemma string_compare_refl (s : string) : String.compare s s = Eq.
Proof.
  induction s as [|a s IH]; simpl; [reflexivity|].
  unfold Ascii.compare. now rewrite N.compare_refl.
Qed.

Lemma string_compare_lt_trans (s1 : string) :
  forall s2 s3,
    String.compare s1 s2 = Lt -> String.compare s2 s3 = Lt ->
    String.compare s1 s3 = Lt.
Proof.
  induction s1 as [|a s1 IH]; intros [|b s2] [|c s3]; simpl;
    try discriminate; try reflexivity.
  destruct (Ascii.compare a b) eqn:Hab; try discriminate;
    destruct (Ascii.compare b c) eqn:Hbc; try discriminate; intros H12 H23.
  - apply Ascii.compare_eq_iff in Hab, Hbc. subst.
    unfold Ascii.compare. rewrite N.compare_refl. eauto.
  - apply Ascii.compare_eq_iff in Hab. subst. now rewrite Hbc.
  - apply Ascii.compare_eq_iff in Hbc. subst. now rewrite Hab.
  - now rewrite (ascii_compare_lt_trans a b c).
Qed.

Lemma string_leb_refl (s : string) : String.leb s s = true.
Proof. unfold String.leb. now rewrite string_compare_refl. Qed.

Lemma string_leb_trans (s1 s2 s3 : string) :
  String.leb s1 s2 = true -> String.leb s2 s3 = true ->
  String.leb s1 s3 = true.
Proof.
  unfold String.leb.
  destruct (String.compare s1 s2) eqn:H12; try discriminate;
    destruct (String.compare s2 s3) eqn:H23; try discriminate; intros _ _.
  - apply String.compare_eq_iff in H12, H23. subst.
    now rewrite string_compare_refl.
  - apply String.compare_eq_iff in H12. subst. now rewrite H23.
  - apply String.compare_eq_iff in H23. subst. now rewrite H12.
  - now rewrite (string_compare_lt_trans s1 s2 s3).
Qed.

Lemma string_ltb_false_leb (s1 s2 : string) :
  String.ltb s1 s2 = false -> String.leb s2 s1 = true.
Proof.
  unfold String.ltb, String.leb. rewrite (String.compare_antisym s1 s2).
  destruct (String.compare s2 s1); simpl; congruence.
Qed.

Lemma string_ltb_leb (s1 s2 : string) :
  String.ltb s1 s2 = true -> String.leb s1 s2 = true.
Proof.
  unfold String.ltb, String.leb.
  destruct (String.compare s1 s2); simpl; congruence.
Qed.

End string_order.

Section sorted_reverse.

Context {A : Type} (key : A -> string).

Lemma key_descending_trans (x y z : A) :
  key_descending key x y -> key_descending key y z -> key_descending key x z.
Proof. unfold key_descending. intros Hxy Hyz. eapply string_leb_trans; eauto. Qed.

Lemma insert_reverse_perm (x : A) (l : list A) :
  insert_reverse key x l ≡ₚ x :: l.
Proof.
  induction l as [|y l IH]; simpl; [reflexivity|].
  destruct (String.ltb (key x) (key y)); [|reflexivity].
  rewrite IH. apply Permutation_swap.
Qed.

Lemma sorted_reverse_perm (l : list A) : sorted_reverse key l ≡ₚ l.
Proof.
  induction l as [|x l IH]; simpl; [reflexivity|].
  rewrite insert_reverse_perm. now rewrite IH.
Qed.

Lemma insert_reverse_sorted (x : A) (l : list A) :
  StronglySorted (key_descending key) l ->
  StronglySorted (key_descending key) (insert_reverse key x l).
Proof.
  induction 1 as [|y l Hs IH Hy]; simpl.
  - repeat constructor.
  - destruct (String.ltb (key x) (key y)) eqn:Hlt.
    + constructor; [exact IH|].
      rewrite insert_reverse_perm. constructor; [|exact Hy].
      apply string_ltb_leb, Hlt.
    + assert (Hxy : key_descending key x y) by apply string_ltb_false_leb, Hlt.
      constructor; [constructor; assumption|].
      constructor; [exact Hxy|].
      eapply Forall_impl; [exact Hy|].
      intros z Hz. eapply key_descending_trans; eauto.
Qed.

Lemma sorted_reverse_sorted (l : list A) :
  StronglySorted (key_descending key) (sorted_reverse key l).
Proof.
  induction l as [|x l IH]; simpl; [constructor|].
  now apply insert_reverse_sorted.
Qed.

(** Stability: among the elements passing any test, the order of [l] is
    kept as soon as the test only passes elements of one key. *)
Lemma insert_reverse_stable (p : A -> bool) (x : A) (l : list A) :
  (forall y, In y l -> p x = true -> p y = true -> key y = key x) ->
  List.filter p (insert_reverse key x l) = List.filter p (x :: l).
Proof.
  induction l as [|y l IH]; intros Hkey; [reflexivity|]. simpl.
  destruct (String.ltb (key x) (key y)) eqn:Hlt; [|reflexivity].
  simpl. rewrite IH by (intros; apply Hkey; simpl; auto). simpl.
  destruct (p x) eqn:Hpx, (p y) eqn:Hpy; try reflexivity.
  exfalso. specialize (Hkey y (or_introl eq_refl) eq_refl Hpy).
  unfold String.ltb in Hlt. rewrite Hkey, string_compare_refl in Hlt.
  discriminate.
Qed.

Lemma sorted_reverse_stable (k : string) (l : list A) :
  List.filter (fun x => String.eqb (key x) k) (sorted_reverse key l)
  = List.filter (fun x => String.eqb (key x) k) l.
Proof.
  induction l as [|x l IH]; [reflexivity|].
  change (sorted_reverse key (x :: l))
    with (insert_reverse key x (sorted_reverse key l)).
  rewrite insert_reverse_stable.
  - simpl. now rewrite IH.
  - intros y _ Hx Hy. apply String.eqb_eq in Hx, Hy. congruence.
Qed.

End sorted_reverse.

(** ** Filing *)

Lemma all_four_spec (a b c d : string) :
  all [a; b; c; d] = false
  <-> a = ""%string \/ b = ""%string \/ c = ""%string \/ d = ""%string.
Proof.
  unfold all. simpl. rewrite andb_true_r.
  destruct a, b, c, d; simpl; split; intros H;
    try discriminate; try reflexivity; auto;
    repeat (destruct H as [H|H]; try discriminate H).
Qed.

Lemma all_four_true (a b c d : string) :
  a <> ""%string -> b <> ""%string -> c <> ""%string -> d <> ""%string ->
  all [a; b; c; d] = true.
Proof.
  intros Ha Hb Hc Hd. destruct (all [a; b; c; d]) eqn:H; [reflexivity|].
  apply all_four_spec in H. tauto.
Qed.

(** C3: on a complaint list of length [n], a filing by the current user with
    non-empty title, category, description and location appends exactly one
    complaint: its id is [n + 1], its status "Filed", its department and
    admin notes [None], its owner fields the current user's email and name,
    and its [created_at] and [updated_at] the two clock readings taken while
    filing. *)
Theorem file_complaint_appends (user : User.t) (form : complaint_form)
    (now_created now_updated : string) (complaints : list Complaint.t)
    (uploads : gmap string string) (n : nat) :
  List.length complaints = n ->
  form_title form <> ""%string -> form_category form <> ""%string ->
  form_description form <> ""%string -> form_location form <> ""%string ->
  exists new_complaint uploads',
    file_complaint_submit (Some user) form now_created now_updated
      complaints uploads
    = (FileSuccess (Z.of_nat n + 1), complaints ++ [new_complaint], uploads')
    /\ List.length (complaints ++ [new_complaint]) = S n
    /\ Complaint.id new_complaint = Z.of_nat n + 1
    /\ Complaint.status new_complaint = "Filed"%string
    /\ Complaint.department new_complaint = None
    /\ Complaint.admin_notes new_complaint = None
    /\ Complaint.user_email new_complaint = User.email user
    /\ Complaint.user_name new_complaint = User.name user
    /\ Complaint.created_at new_complaint = now_created
    /\ Complaint.updated_at new_complaint = now_updated
    /\ Complaint.title new_complaint = form_title form
    /\ Complaint.category new_complaint = form_category form
    /\ Complaint.description new_complaint = form_description form
    /\ Complaint.location new_complaint = form_location form
    /\ Complaint.incident_date new_complaint
       = date_isoformat (form_incident_date form).
Proof.
  intros Hn Ht Hc Hd Hl. unfold file_complaint_submit.
  rewrite (all_four_true _ _ _ _ Ht Hc Hd Hl). simpl negb. cbv iota.
  rewrite Hn.
  destruct (form_evidence_file form) as [[file_name buffer]|];
    eexists _, _; (split; [reflexivity|]);
    rewrite length_app, Hn; simpl;
    repeat split; lia.
Qed.

Lemma file_complaint_appends_witness :
  exists new_complaint uploads',
    file_complaint_submit
      (Some (User.Build "Asha" "asha@example.org" "5550100"
               (hash_password "s3cret!") false "2024-05-01T10:00:00"))
      (ComplaintForm "Pothole" "Civic Body" "Large pothole on Main St"
         "Main St" (Date 2024 5 1) None)
      "2024-05-02T08:30:00.000120" "2024-05-02T08:30:00.000131" [] ∅
    = (FileSuccess 1, [new_complaint], uploads')
    /\ Complaint.status new_complaint = "Filed"%string
    /\ Complaint.department new_complaint = None
    /\ Complaint.incident_date new_complaint = "2024-05-01"%string.
Proof.
  destruct (file_complaint_appends
      (User.Build "Asha" "asha@example.org" "5550100"
         (hash_password "s3cret!") false "2024-05-01T10:00:00")
      (ComplaintForm "Pothole" "Civic Body" "Large pothole on Main St"
         "Main St" (Date 2024 5 1) None)
      "2024-05-02T08:30:00.000120" "2024-05-02T08:30:00.000131" [] ∅ 0%nat)
    as (c & ups & Heq & _ & _ & Hs & Hd & _ & _ & _ & _ & _ & _ & _ & _ & _ & Hi);
    [reflexivity | discriminate..|].
  exists c, ups. repeat split; assumption.
Defined.

Example file_complaint_evidence_name :
  let '(r, cs, ups) :=
    file_complaint_submit
      (Some (User.Build "Asha" "asha@example.org" "5550100"
               (hash_password "s3cret!") false "2024-05-01T10:00:00"))
      (ComplaintForm "Light" "Civic Body" "Street light broken" "Oak St"
         (Date 2024 5 7) (Some ("photo.png", "PNG")))
      "2024-05-08T07:00:00" "2024-05-08T07:00:00.000004"
      three_complaints ∅ in
  r = FileSuccess 4
  /\ List.map Complaint.evidence_file cs
     = [None; Some "2_receipt.pdf"; None; Some "4_photo.png"]%string
  /\ ups !! "4_photo.png"%string = Some "PNG"%string.
Proof. vm_compute. auto. Qed.


(** ** Updating *)

Section update.

Variables (cid : Z) (assign : Complaint.t -> Complaint.t).

Lemma update_loop_prefix (rest : list Complaint.t) :
  forall prefix c,
    get cid rest = Some c ->
    exists before after,
      rest = before ++ c :: after
      /\ Forall (fun c' => Complaint.id c' <> cid) before
      /\ Complaint.id c = cid
      /\ update_loop cid assign (List.length prefix) rest (prefix ++ rest)
         = prefix ++ before ++ assign c :: after.
Proof.
  unfold get. induction rest as [|c0 rest IH]; intros prefix c; simpl;
    [discriminate|].
  destruct (Z.eqb_spec (Complaint.id c0) cid) as [Heq|Hne].
  - intros [= ->]. exists [], rest. repeat split; auto.
    replace (List.length prefix) with (List.length prefix + 0)%nat by lia.
    now rewrite alter_app_r.
  - intros Hget.
    destruct (IH (prefix ++ [c0]) c Hget) as (before & after & -> & Hb & Hc & Hu).
    exists (c0 :: before), after. repeat split; auto.
    rewrite length_app, Nat.add_1_r, <- app_assoc in Hu. simpl in Hu.
    rewrite Hu, <- app_assoc. reflexivity.
Qed.

Lemma update_loop_skips (rest : list Complaint.t) :
  forall prefix i,
    get cid rest = None ->
    update_loop cid assign i rest prefix = prefix.
Proof.
  unfold get. induction rest as [|c0 rest IH]; intros prefix i; simpl;
    [reflexivity|].
  destruct (Z.eqb (Complaint.id c0) cid); [discriminate | apply IH].
Qed.

(** The first complaint with the id is the one assigned to. *)
Lemma update_loop_first (complaints : list Complaint.t) (c : Complaint.t) :
  get cid complaints = Some c ->
  exists before after,
    complaints = before ++ c :: after
    /\ Forall (fun c' => Complaint.id c' <> cid) before
    /\ Complaint.id c = cid
    /\ update_loop cid assign 0 complaints complaints
       = before ++ assign c :: after.
Proof.
  intros Hget. exact (update_loop_prefix complaints [] c Hget).
Qed.

Lemma update_loop_absent (complaints : list Complaint.t) :
  get cid complaints = None ->
  update_loop cid assign 0 complaints complaints = complaints.
Proof. apply update_loop_skips. Qed.

Lemma get_first (before after : list Complaint.t) (c : Complaint.t) :
  Forall (fun c' => Complaint.id c' <> cid) before ->
  Complaint.id c = cid ->
  get cid (before ++ c :: after) = Some c.
Proof.
  intros Hb Hc. unfold get. induction Hb as [|c0 l Hne _ IH]; simpl.
  - rewrite Hc, Z.eqb_refl. reflexivity.
  - destruct (Z.eqb_spec (Complaint.id c0) cid); [contradiction | exact IH].
Qed.

End update.

(** C5: when the list holds a complaint with the given id, [update_status]
    replaces the status, department and admin notes of the first such
    complaint and sets its [updated_at] to the clock reading; its ten other
    fields, every complaint at another index, and the length and order of the
    list are unchanged. *)
Theorem update_status_frame (complaints : list Complaint.t) (cid : Z)
    (status department admin_notes now : string) (c : Complaint.t) :
  get cid complaints = Some c ->
  exists (i : nat) (c' : Complaint.t),
    let complaints' :=
      update_status complaints cid status department admin_notes now in
    complaints !! i = Some c
    /\ complaints' !! i = Some c'
    /\ Complaint.status c' = status
    /\ Complaint.department c' = or_None department
    /\ Complaint.admin_notes c' = or_None admin_notes
    /\ Complaint.updated_at c' = now
    /\ Complaint.id c' = Complaint.id c
    /\ Complaint.user_email c' = Complaint.user_email c
    /\ Complaint.user_name c' = Complaint.user_name c
    /\ Complaint.title c' = Complaint.title c
    /\ Complaint.category c' = Complaint.category c
    /\ Complaint.description c' = Complaint.description c
    /\ Complaint.location c' = Complaint.location c
    /\ Complaint.incident_date c' = Complaint.incident_date c
    /\ Complaint.evidence_file c' = Complaint.evidence_file c
    /\ Complaint.created_at c' = Complaint.created_at c
    /\ (forall j : nat, j <> i -> complaints' !! j = complaints !! j)
    /\ List.length complaints' = List.length complaints
    /\ List.map Complaint.id complaints' = List.map Complaint.id complaints.
Proof.
  intros Hget. unfold update_status.
  destruct (update_loop_first cid
              (assign_admin_fields status (or_None department)
                 (or_None admin_notes) now) complaints c Hget)
    as (before & after & -> & Hb & Hc & ->).
  exists (List.length before), (assign_admin_fields status (or_None department)
                                  (or_None admin_notes) now c).
  cbv zeta.
  split; [now rewrite list_lookup_middle|].
  split; [now rewrite list_lookup_middle|].
  do 14 (split; [reflexivity|]).
  split; [|split].
  - intros j Hj. destruct (Nat.lt_ge_cases j (List.length before)) as [Hlt|Hge].
    + now rewrite !lookup_app_l.
    + rewrite !lookup_app_r by lia.
      destruct (j - List.length before)%nat as [|k] eqn:Hk; [lia|reflexivity].
  - rewrite !length_app. reflexivity.
  - rewrite !map_app. reflexivity.
Qed.

Lemma update_status_frame_witness :
  exists (i : nat) (c' : Complaint.t),
    three_complaints !! i = three_complaints !! 1%nat
    /\ update_status three_complaints 2 "Resolved" "" "Refunded"
         "2024-05-07T10:00:00" !! i = Some c'
    /\ Complaint.status c' = "Resolved"%string
    /\ Complaint.department c' = None
    /\ Complaint.admin_notes c' = Some "Refunded"%string
    /\ Complaint.created_at c' = "2024-05-04T11:00:00"%string.
Proof.
  destruct (update_status_frame three_complaints 2 "Resolved" "" "Refunded"
              "2024-05-07T10:00:00"
              (Complaint.Build 2 "ben@example.org" "Ben" "Bribe" "Corruption"
                 "Clerk asked for money" "Town hall" "2024-05-03"
                 (Some "2_receipt.pdf") "Under Review"
                 (Some "Anti-Corruption Bureau") (Some "Called the clerk")
                 "2024-05-04T11:00:00" "2024-05-05T09:00:00") eq_refl)
    as (i & c' & Hi & Hc' & Hs & Hd & Hn & _ & _ & _ & _ & _ & _ & _ & _ & _
        & _ & Hcr & _).
  exists i, c'. rewrite Hi. repeat split; assumption.
Defined.

(** C10: after [update_status] on a list holding the id, the updated
    complaint has department [None] when the empty department choice was
    submitted and admin notes [None] when the notes text was empty; neither
    field ever holds the empty string; a non-empty choice or text is stored
    as it was submitted. *)
Theorem update_status_optional_fields (complaints : list Complaint.t)
    (cid : Z) (status department admin_notes now : string) (c : Complaint.t) :
  get cid complaints = Some c ->
  exists c' : Complaint.t,
    get cid (update_status complaints cid status department admin_notes now)
    = Some c'
    /\ (department = ""%string -> Complaint.department c' = None)
    /\ (admin_notes = ""%string -> Complaint.admin_notes c' = None)
    /\ Complaint.department c' <> Some ""%string
    /\ Complaint.admin_notes c' <> Some ""%string
    /\ (department <> ""%string -> Complaint.department c' = Some department)
    /\ (admin_notes <> ""%string ->
        Complaint.admin_notes c' = Some admin_notes).
Proof.
  intros Hget. unfold update_status.
  destruct (update_loop_first cid
              (assign_admin_fields status (or_None department)
                 (or_None admin_notes) now) complaints c Hget)
    as (before & after & -> & Hb & Hc & ->).
  eexists. split; [apply get_first; [exact Hb | exact Hc]|]. simpl.
  repeat split.
  - now intros ->.
  - now intros ->.
  - apply or_None_never_empty.
  - apply or_None_never_empty.
  - apply or_None_verbatim.
  - apply or_None_verbatim.
Qed.

Lemma update_status_optional_fields_witness :
  exists c' : Complaint.t,
    get 2 (update_status three_complaints 2 "Resolved" "" "Refunded"
             "2024-05-07T10:00:00") = Some c'
    /\ Complaint.department c' = None
    /\ Complaint.admin_notes c' = Some "Refunded"%string.
Proof.
  destruct (update_status_optional_fields three_complaints 2 "Resolved" ""
              "Refunded" "2024-05-07T10:00:00"
              (Complaint.Build 2 "ben@example.org" "Ben" "Bribe" "Corruption"
                 "Clerk asked for money" "Town hall" "2024-05-03"
                 (Some "2_receipt.pdf") "Under Review"
                 (Some "Anti-Corruption Bureau") (Some "Called the clerk")
                 "2024-05-04T11:00:00" "2024-05-05T09:00:00") eq_refl)
    as (c' & Hg & Hd & _ & _ & _ & _ & Hn).
  exists c'. split; [exact Hg|]. split; [apply Hd; reflexivity|].
  apply Hn. discriminate.
Defined.

(** ** Listings *)

Lemma my_complaints_page_shown (user : User.t) (complaints : list Complaint.t) :
  my_complaints_page (Some user) complaints
  = Ok (sorted_reverse Complaint.created_at
          (user_complaints (User.email user) complaints)).
Proof. destruct complaints; reflexivity. Qed.

(** C6: the complaints listed for a logged-in user are exactly those of the
    store whose [user_email] is that user's email, each as often as the store
    holds it and none filed under another email, in descending order of
    [created_at]; the administrator's listing holds every complaint of the
    store, in the same descending order. *)
Theorem listings_filter_and_order (user : User.t)
    (complaints : list Complaint.t) :
  (exists shown : list Complaint.t,
     my_complaints_page (Some user) complaints = Ok shown
     /\ shown ≡ₚ List.filter
                   (fun c => String.eqb (Complaint.user_email c) (User.email user))
                   complaints
     /\ (forall c, In c shown
                   <-> In c complaints
                       /\ Complaint.user_email c = User.email user)
     /\ StronglySorted (key_descending Complaint.created_at) shown)
  /\ admin_dashboard_page complaints ≡ₚ complaints
  /\ (forall c, In c (admin_dashboard_page complaints) <-> In c complaints)
  /\ StronglySorted (key_descending Complaint.created_at)
       (admin_dashboard_page complaints).
Proof.
  split; [|split; [|split]].
  - eexists. split; [apply my_complaints_page_shown|].
    split; [apply sorted_reverse_perm|]. split; [|apply sorted_reverse_sorted].
    intros c. rewrite <- (String.eqb_eq (Complaint.user_email c)).
    rewrite <- (filter_In
      (fun c => String.eqb (Complaint.user_email c) (User.email user))).
    split; apply Permutation_in;
      [|symmetry]; apply sorted_reverse_perm.
  - apply sorted_reverse_perm.
  - intros c. split; apply Permutation_in;
      [|symmetry]; apply sorted_reverse_perm.
  - apply sorted_reverse_sorted.
Qed.

Example my_complaints_page_newest_first :
  match my_complaints_page
          (Some (User.Build "Asha" "asha@example.org" "5550100"
                   (hash_password "s3cret!") false "2024-05-01T10:00:00"))
          three_complaints with
  | Ok shown => List.map Complaint.id shown
  | Raise _ => []
  end = [3; 1].
Proof. vm_compute. reflexivity. Qed.

Example admin_dashboard_page_newest_first :
  List.map Complaint.id (admin_dashboard_page three_complaints) = [3; 2; 1].
Proof. vm_compute. reflexivity. Qed.

(** ** Sessions and routing *)

Lemma route_login_or_register (p : string) :
  p = "login"%string \/ p = "register"%string ->
  route p = Some LoginPage \/ route p = Some RegisterPage.
Proof. intros [-> | ->]; [left | right]; reflexivity. Qed.

Ltac unfold_setters :=
  unfold set_page, set_current_user, set_users, set_store,
    set_selected_complaint in *; simpl in *.

(** With a user in the session, a page either keeps a user or is left
    unchanged. *)
Lemma run_page_keeps_user (en : env) (v : view) (w : World) (e : event)
    (user : User.t) :
  current_user w = Some user ->
  is_Some (current_user (run_page en v w e)).
Proof.
  intros Hu. destruct v; simpl; rewrite ?Hu;
    repeat (case_match; subst; unfold_setters; rewrite ?Hu; eauto).
Qed.

(** Without a user, the login and register pages stay among themselves or
    log a user in. *)
Lemma run_page_login_register (en : env) (v : view) (w : World) (e : event) :
  v = LoginPage \/ v = RegisterPage ->
  session_ok w -> session_ok (run_page en v w e).
Proof.
  unfold session_ok. intros [-> | ->] Hw; simpl;
    repeat (case_match; subst; unfold_setters; eauto; try discriminate).
Qed.

Lemma sidebar_session_ok (user : User.t) (w w' : World) (e : event) :
  current_user w = Some user ->
  sidebar user w e = Some w' -> session_ok w'.
Proof.
  unfold session_ok, sidebar. intros Hu H.
  destruct e; try discriminate H; try destruct (User.is_admin user);
    try discriminate H; injection H as <-; unfold_setters;
    intros; try congruence; auto.
Qed.

Lemma main_session_ok (en : env) (w : World) (e : event) :
  session_ok w -> session_ok (main en w e).
Proof.
  intros Hw. unfold main. cbv zeta.
  set (w1 := set_users (init_system (now en 0%nat) (users w)) w).
  assert (Hw1 : session_ok w1) by exact Hw.
  assert (Hu1 : current_user w1 = current_user w) by reflexivity.
  clearbody w1. destruct (current_user w1) as [user|] eqn:Hu.
  - destruct (sidebar user w1 e) as [w'|] eqn:Hs.
    + eapply sidebar_session_ok; eauto.
    + destruct (route (page w1)) as [v|]; [|exact Hw1].
      destruct (run_page_keeps_user en v w1 e user Hu) as [u' Hu'].
      unfold session_ok. congruence.
  - destruct (route_login_or_register (page w1) (Hw1 Hu)) as [Hv | Hv];
      rewrite Hv; apply run_page_login_register; auto.
Qed.

Lemma reachable_session_ok (w : World) : reachable w -> session_ok w.
Proof.
  induction 1 as [|en w e _ IH _|w _ _].
  - left. reflexivity.
  - now apply main_session_ok.
  - left. reflexivity.
Qed.

Lemma reachable_runs (en : env) (es : list event) :
  forall w,
    reachable w -> forallb (widget_values_ok en) es = true ->
    reachable (runs en es w).
Proof.
  unfold runs. induction es as [|e es IH]; intros w Hw Hes; simpl in *;
    [exact Hw|].
  apply andb_true_iff in Hes as [He Hes].
  apply IH; [|exact Hes]. now apply reachable_run.
Qed.

(** C2, as the claim states it, fails: [main] dispatches on the page selector
    alone.  With no user in the session and the selector on the
    administrator's dashboard, that page is the one run, nothing sends the
    session to the login page, and its "Manage" button leads on to the
    manage page. *)
Lemma unauthenticated_admin_dashboard_not_redirected :
  let w := Build_World ∅ three_complaints ∅ None "admin_dashboard" None in
  current_user w = None
  /\ page w <> "login"%string /\ page w <> "register"%string
  /\ route (page w) = Some AdminDashboardPage
  /\ page (main sample_env w NoClick) = "admin_dashboard"%string
  /\ current_user (main sample_env w NoClick) = None
  /\ page (main sample_env w (AdminManage 2)) = "manage_complaint"%string.
Proof.
  cbv zeta. repeat split; try discriminate; vm_compute; reflexivity.
Qed.

(** C2 (amended): in every world the application reaches from its first
    start, a session without a current user has its page selector on the
    login or the register page, so [main] runs one of these two and none of
    the dashboard, filing, listing, detail, admin and manage pages; [main]
    itself does not look at the current user when it dispatches. *)
Theorem unauthenticated_session_pages (w : World) :
  reachable w -> current_user w = None ->
  (page w = "login"%string \/ page w = "register"%string)
  /\ (route (page w) = Some LoginPage \/ route (page w) = Some RegisterPage)
  /\ forall v, route (page w) = Some v ->
       v <> DashboardPage /\ v <> FileComplaintPage /\ v <> MyComplaintsPage
       /\ v <> ViewComplaintPage /\ v <> AdminDashboardPage
       /\ v <> ManageComplaintPage.
Proof.
  intros Hr Hu. pose proof (reachable_session_ok w Hr Hu) as Hp.
  split; [exact Hp|]. split; [now apply route_login_or_register|].
  intros v Hv. destruct Hp as [Hp|Hp]; rewrite Hp in Hv;
    injection Hv as <-; repeat split; discriminate.
Qed.

Lemma unauthenticated_session_pages_witness :
  let w := runs sample_env (sample_filing ++ [SidebarLogout]) initial_world in
  complaints w <> []
  /\ (page w = "login"%string \/ page w = "register"%string)
  /\ (route (page w) = Some LoginPage \/ route (page w) = Some RegisterPage).
Proof.
  cbv zeta. split; [vm_compute; discriminate|].
  destruct (unauthenticated_session_pages
              (runs sample_env (sample_filing ++ [SidebarLogout]) initial_world))
    as (Hp & Hr & _).
  - apply reachable_runs; [apply reachable_initial | vm_compute; reflexivity].
  - vm_compute. reflexivity.
  - split; assumption.
Defined.

(** ** Status workflow *)

Lemma has_index_In (options : list string) (x : string) :
  has_index options x = true <-> In x options.
Proof.
  unfold has_index. rewrite existsb_exists. split.
  - intros (y & Hy & Heq). apply String.eqb_eq in Heq. now subst.
  - intros H. exists x. split; [exact H | apply String.eqb_refl].
Qed.

Lemma get_Some_In (selected : Z) (complaints : list Complaint.t)
    (c : Complaint.t) :
  get selected complaints = Some c ->
  In c complaints /\ Complaint.id c = selected.
Proof.
  unfold get. intros H. apply find_some in H as [Hin Hid].
  split; [exact Hin | now apply Z.eqb_eq].
Qed.

Lemma assign_admin_fields_ok (status department admin_notes now : string)
    (c : Complaint.t) :
  has_index STATUS_OPTIONS status = true ->
  has_index DEPARTMENT_OPTIONS department = true ->
  complaint_ok
    (assign_admin_fields status (or_None department) (or_None admin_notes)
       now c).
Proof.
  intros Hs Hd. split; [exact Hs|]. simpl. unfold or_None.
  destruct (truthy department) eqn:Ht; auto.
Qed.

Lemma update_status_ok (complaints : list Complaint.t) (cid : Z)
    (status department admin_notes now : string) :
  has_index STATUS_OPTIONS status = true ->
  has_index DEPARTMENT_OPTIONS department = true ->
  Forall complaint_ok complaints ->
  Forall complaint_ok
    (update_status complaints cid status department admin_notes now).
Proof.
  intros Hs Hd Hok. unfold update_status.
  destruct (get cid complaints) as [c|] eqn:Hget.
  - destruct (update_loop_first cid
                (assign_admin_fields status (or_None department)
                   (or_None admin_notes) now) complaints c Hget)
      as (before & after & -> & _ & _ & ->).
    apply Forall_app in Hok as [Hb Ha]. apply Forall_cons in Ha as [_ Ha].
    apply Forall_app. split; [exact Hb|].
    apply Forall_cons. split; [|exact Ha].
    now apply assign_admin_fields_ok.
  - now rewrite update_loop_absent.
Qed.

Lemma manage_complaint_form_ok (complaints : list Complaint.t) (selected : Z)
    (c : Complaint.t) :
  get selected complaints = Some c ->
  In (Complaint.status c) STATUS_OPTIONS ->
  match Complaint.department c with
  | None => True
  | Some d => In d DEPARTMENT_OPTIONS
  end ->
  manage_complaint_form complaints selected = Ok (Some c).
Proof.
  intros Hget Hs Hd. unfold manage_complaint_form. rewrite Hget.
  apply has_index_In in Hs. rewrite Hs.
  destruct (Complaint.department c) as [d|]; [|reflexivity].
  apply has_index_In in Hd. rewrite Hd.
  change (negb true) with false. now rewrite andb_false_r.
Qed.

Lemma manage_complaint_submit_ok (complaints : list Complaint.t)
    (selected : Z) (status department admin_notes now : string) :
  has_index STATUS_OPTIONS status = true ->
  has_index DEPARTMENT_OPTIONS department = true ->
  Forall complaint_ok complaints ->
  Forall complaint_ok
    (snd (manage_complaint_submit complaints selected status department
            admin_notes now)).
Proof.
  intros Hs Hd Hok. unfold manage_complaint_submit.
  destruct (manage_complaint_form complaints selected) as [[c|]|]; simpl;
    auto using update_status_ok.
Qed.

Lemma file_complaint_submit_ok (current_user : option User.t)
    (form : complaint_form) (now_created now_updated : string)
    (complaints : list Complaint.t) (uploads : gmap string string) :
  Forall complaint_ok complaints ->
  Forall complaint_ok
    (snd (fst (file_complaint_submit current_user form now_created
                 now_updated complaints uploads))).
Proof.
  intros Hok. unfold file_complaint_submit.
  destruct (negb _); [exact Hok|].
  destruct (form_evidence_file form) as [[file_name buffer]|],
    current_user as [user|]; simpl; try exact Hok;
    (apply Forall_app; split; [exact Hok|]);
    repeat constructor.
Qed.

Lemma run_page_store_ok (en : env) (v : view) (w : World) (e : event) :
  widget_values_ok en e = true ->
  store_ok w -> store_ok (run_page en v w e).
Proof.
  unfold store_ok. intros He Hw.
  destruct v; simpl; try (destruct e; simpl; auto; fail);
    try (repeat (case_match; subst; unfold_setters; auto); fail).
  - destruct e; simpl; auto.
    pose proof (file_complaint_submit_ok (current_user w) form
                  (now en 1%nat) (now en 2%nat) (complaints w) (uploads w)
                  Hw) as Hf.
    destruct (file_complaint_submit _ _ _ _ _ _) as [[r cs] ups].
    destruct r; exact Hf.
  - destruct (selected_complaint w) as [selected|]; [|exact Hw].
    destruct e; simpl; auto.
    + simpl in He. apply andb_true_iff in He as [Hs Hd].
      pose proof (manage_complaint_submit_ok (complaints w) selected status
                    department admin_notes (now en 1%nat) Hs Hd Hw) as Hm.
      destruct (manage_complaint_submit _ _ _ _ _ _) as [r cs].
      destruct r; auto.
    + repeat (case_match; unfold_setters; auto).
Qed.

Lemma main_store_ok (en : env) (w : World) (e : event) :
  widget_values_ok en e = true ->
  store_ok w -> store_ok (main en w e).
Proof.
  intros He Hw. unfold main. cbv zeta.
  set (w1 := set_users (init_system (now en 0%nat) (users w)) w).
  assert (Hw1 : store_ok w1) by exact Hw. clearbody w1.
  assert (Hside : forall user w', sidebar user w1 e = Some w' -> store_ok w').
  { intros user w' H. unfold sidebar in H.
    destruct e; try discriminate H; try destruct (User.is_admin user);
      try discriminate H; injection H as <-; exact Hw1. }
  destruct (current_user w1) as [user|].
  - destruct (sidebar user w1 e) as [w'|] eqn:Hs; [eauto|].
    destruct (route (page w1)); [now apply run_page_store_ok | exact Hw1].
  - destruct (route (page w1)); [now apply run_page_store_ok | exact Hw1].
Qed.

Lemma reachable_store_ok (w : World) : reachable w -> store_ok w.
Proof.
  induction 1 as [|en w e _ IH He|w _ IH].
  - constructor.
  - now apply main_store_ok.
  - exact IH.
Qed.

Lemma complaint_ok_values (c : Complaint.t) :
  complaint_ok c ->
  In (Complaint.status c) STATUS_OPTIONS
  /\ match Complaint.department c with
     | None => True
     | Some d => In d DEPARTMENT_OPTIONS
     end.
Proof.
  intros [Hs Hd]. split; [now apply has_index_In|].
  destruct (Complaint.department c); [|exact I].
  now apply has_index_In.
Qed.

Lemma manage_any_status (complaints : list Complaint.t) (selected : Z)
    (c : Complaint.t) (status department admin_notes now : string) :
  get selected complaints = Some c ->
  In (Complaint.status c) STATUS_OPTIONS ->
  match Complaint.department c with
  | None => True
  | Some d => In d DEPARTMENT_OPTIONS
  end ->
  exists c',
    manage_complaint_submit complaints selected status department admin_notes
      now
    = (ManageUpdated,
       update_status complaints selected status department admin_notes now)
    /\ get selected
         (update_status complaints selected status department admin_notes now)
       = Some c'
    /\ Complaint.status c' = status.
Proof.
  intros Hget Hs Hd. unfold manage_complaint_submit.
  rewrite (manage_complaint_form_ok _ _ _ Hget Hs Hd).
  destruct (get_Some_In _ _ _ Hget) as [_ Hid]. rewrite Hid.
  unfold update_status.
  destruct (update_loop_first selected
              (assign_admin_fields status (or_None department)
                 (or_None admin_notes) now) complaints c Hget)
    as (before & after & -> & Hb & Hc & ->).
  eexists. split; [reflexivity|]. split; [now apply get_first|]. reflexivity.
Qed.

(** C7: every complaint of every world the application reaches has one of
    the five status values Filed, Under Review, In Progress, Resolved,
    Rejected; in such a world the administrator's update of a complaint that
    is found succeeds for each of the five values and leaves the complaint
    with the value chosen; and for every pair [s], [s'] of the five values an
    update of a complaint in status [s] to status [s'] succeeds, no order of
    transitions being checked. *)
Theorem status_workflow :
  (forall w c,
     reachable w -> In c (complaints w) ->
     In (Complaint.status c)
        ["Filed"; "Under Review"; "In Progress"; "Resolved"; "Rejected"]%string)
  /\ (forall w selected c status department admin_notes now,
        reachable w -> get selected (complaints w) = Some c ->
        In status STATUS_OPTIONS ->
        exists c',
          manage_complaint_submit (complaints w) selected status department
            admin_notes now
          = (ManageUpdated,
             update_status (complaints w) selected status department
               admin_notes now)
          /\ get selected
               (update_status (complaints w) selected status department
                  admin_notes now)
             = Some c'
          /\ Complaint.status c' = status)
  /\ (forall s s' complaints selected c department admin_notes now,
        In s STATUS_OPTIONS -> In s' STATUS_OPTIONS ->
        get selected complaints = Some c ->
        Complaint.status c = s ->
        match Complaint.department c with
        | None => True
        | Some d => In d DEPARTMENT_OPTIONS
        end ->
        exists c',
          manage_complaint_submit complaints selected s' department
            admin_notes now
          = (ManageUpdated,
             update_status complaints selected s' department admin_notes now)
          /\ get selected
               (update_status complaints selected s' department admin_notes
                  now)
             = Some c'
          /\ Complaint.status c' = s').
Proof.
  split; [|split].
  - intros w c Hr Hin. apply reachable_store_ok in Hr.
    unfold store_ok in Hr. rewrite List.Forall_forall in Hr.
    apply (complaint_ok_values c (Hr c Hin)).
  - intros w selected c status department admin_notes now Hr Hget _.
    apply reachable_store_ok in Hr. unfold store_ok in Hr.
    rewrite List.Forall_forall in Hr.
    destruct (get_Some_In _ _ _ Hget) as [Hin _].
    destruct (complaint_ok_values c (Hr c Hin)) as [Hs Hd].
    now apply manage_any_status with (c := c).
  - intros s s' complaints selected c department admin_notes now Hs _ Hget
      Hcs Hd.
    apply manage_any_status with (c := c); [exact Hget | now rewrite Hcs | exact Hd].
Qed.

Lemma status_workflow_witness :
  let w := runs sample_env (sample_filing ++ sample_resolution) initial_world in
  (exists c, get 1 (complaints w) = Some c
             /\ Complaint.status c = "Resolved"%string)
  /\ exists c',
       manage_complaint_submit (complaints w) 1 "Filed" "" "" "2024-05-09T12:00:00"
       = (ManageUpdated,
          update_status (complaints w) 1 "Filed" "" "" "2024-05-09T12:00:00")
       /\ get 1 (update_status (complaints w) 1 "Filed" "" ""
                   "2024-05-09T12:00:00") = Some c'
       /\ Complaint.status c' = "Filed"%string.
Proof.
  cbv zeta. split.
  - eexists. split; vm_compute; reflexivity.
  - destruct status_workflow as (_ & Hupdate & _).
    eapply Hupdate.
    + apply reachable_runs; [apply reachable_initial | vm_compute; reflexivity].
    + vm_compute. reflexivity.
    + simpl. auto.
Defined.

(** ** One script run, case by case *)

Lemma sidebar_outcome (en : env) (user : User.t) (w w' : World) (e : event) :
  current_user w = Some user ->
  sidebar user w e = Some w' -> outcome en w w'.
Proof.
  intros Hu H. unfold sidebar in H.
  destruct e; try discriminate H;
    try (destruct (User.is_admin user) eqn:Ha; try discriminate H);
    injection H as <-; eauto using outcome.
Qed.

Lemma file_complaint_submit_failure (current_user : option User.t)
    (form : complaint_form) (now_created now_updated : string)
    (complaints : list Complaint.t) (uploads : gmap string string)
    (r : file_result) (cs : list Complaint.t) (ups : gmap string string) :
  file_complaint_submit current_user form now_created now_updated complaints
    uploads = (r, cs, ups) ->
  (forall cid, r <> FileSuccess cid) -> cs = complaints.
Proof.
  unfold file_complaint_submit. destruct (negb _); [now intros [= <- <- <-]|].
  destruct (form_evidence_file form) as [[file_name buffer]|],
    current_user as [user|]; intros [= <- <- <-] Hr;
    try reflexivity; now destruct (Hr _ eq_refl).
Qed.

Lemma run_page_outcome (en : env) (v : view) (w : World) (e : event) :
  route (page w) = Some v -> outcome en w (run_page en v w e).
Proof.
  intros Hv. destruct v; simpl.
  - destruct e; try apply outcome_none.
    + destruct (login_submit (users w) email password) eqn:Hl;
        eauto using outcome.
    + eauto using outcome.
  - destruct e; try apply outcome_none.
    + destruct (register_submit _ _ _ _ _ _ _) as [[] users'] eqn:Hr;
        eauto using outcome.
    + eauto using outcome.
  - destruct (current_user w) as [user|] eqn:Hu; [|apply outcome_none].
    destruct e; try apply outcome_none;
      destruct (User.is_admin user) eqn:Ha; eauto using outcome.
  - destruct e; try apply outcome_none; [|eauto using outcome].
    destruct (file_complaint_submit _ _ _ _ _ _) as [[r cs] ups] eqn:Hf.
    destruct r as [|cid|ex].
    + rewrite (file_complaint_submit_failure _ _ _ _ _ _ _ _ _ Hf)
        by discriminate. eauto using outcome.
    + eauto using outcome.
    + rewrite (file_complaint_submit_failure _ _ _ _ _ _ _ _ _ Hf)
        by discriminate. eauto using outcome.
  - destruct (my_complaints_page _ _) as [[|c shown]|ex] eqn:Hm;
      [| |apply outcome_none].
    + destruct e; eauto using outcome.
    + destruct e; try apply outcome_none.
      destruct (shown_id cid (c :: shown)) eqn:Hs; eauto using outcome.
  - destruct (selected_complaint w) as [selected|]; [|apply outcome_none].
    destruct (get selected (complaints w)), e; eauto using outcome.
  - destruct e; try apply outcome_none.
    destruct (shown_id cid _) eqn:Hs; eauto using outcome.
  - destruct (selected_complaint w) as [selected|] eqn:Hsel;
      [|apply outcome_none].
    destruct e; try apply outcome_none.
    + destruct (manage_complaint_submit _ _ _ _ _ _) as [[] cs] eqn:Hm;
        eauto using outcome.
    + destruct (manage_complaint_form _ _) as [[c|]|]; eauto using outcome.
Qed.

Lemma main_outcome (en : env) (w : World) (e : event) :
  outcome en (set_users (init_system (now en 0%nat) (users w)) w)
    (main en w e).
Proof.
  unfold main. cbv zeta.
  set (w1 := set_users (init_system (now en 0%nat) (users w)) w).
  destruct (current_user w1) as [user|] eqn:Hu.
  - destruct (sidebar user w1 e) as [w'|] eqn:Hs;
      [now apply sidebar_outcome with (user := user) (e := e)|].
    destruct (route (page w1)) eqn:Hr;
      [now apply run_page_outcome | apply outcome_none].
  - destruct (route (page w1)) eqn:Hr;
      [now apply run_page_outcome | apply outcome_none].
Qed.

(** ** What the operations return, read backwards *)

Lemma login_submit_inv (users : gmap string User.t) (email password : string)
    (user : User.t) :
  login_submit users email password = LoginWelcome user ->
  users !! email = Some user
  /\ User.password user = hash_password password.
Proof.
  unfold login_submit. destruct (users !! email) as [u|]; [|discriminate].
  destruct (String.eqb_spec (User.password u) (hash_password password));
    [|discriminate].
  now intros [= <-].
Qed.

Lemma register_submit_inv (users users' : gmap string User.t)
    (name email phone password confirm_password now : string) :
  register_submit users name email phone password confirm_password now
  = (RegisterSuccess, users') ->
  users !! email = None /\ email <> ""%string
  /\ name <> ""%string /\ phone <> ""%string /\ password <> ""%string
  /\ confirm_password = password
  /\ users'
     = <[email := User.Build name email phone (hash_password password) false
                    now]> users.
Proof.
  unfold register_submit. destruct (all _) eqn:Hall; [|discriminate]. simpl.
  destruct (String.eqb_spec password confirm_password) as [<-|];
    [|discriminate]. simpl.
  destruct (users !! email); [discriminate|]. intros [= <-].
  unfold all in Hall. simpl in Hall.
  destruct name, email, phone, password; try discriminate Hall.
  repeat split; discriminate.
Qed.

Lemma file_complaint_submit_inv (current_user : option User.t)
    (form : complaint_form) (now_created now_updated : string)
    (complaints cs : list Complaint.t) (uploads ups : gmap string string)
    (cid : Z) :
  file_complaint_submit current_user form now_created now_updated complaints
    uploads = (FileSuccess cid, cs, ups) ->
  exists (user : User.t) (new_complaint : Complaint.t),
    current_user = Some user
    /\ cid = Z.of_nat (List.length complaints) + 1
    /\ cs = complaints ++ [new_complaint]
    /\ Complaint.id new_complaint = cid
    /\ Complaint.user_email new_complaint = User.email user
    /\ Complaint.user_name new_complaint = User.name user
    /\ Complaint.status new_complaint = "Filed"%string
    /\ Complaint.department new_complaint = None
    /\ match form_evidence_file form with
       | Some (file_name, buffer) =>
           Complaint.evidence_file new_complaint
           = Some (pretty cid ++ "_" ++ file_name)%string
           /\ ups = <[(pretty cid ++ "_" ++ file_name)%string := buffer]> uploads
       | None =>
           Complaint.evidence_file new_complaint = None /\ ups = uploads
       end.
Proof.
  unfold file_complaint_submit. destruct (negb _); [discriminate|].
  destruct (form_evidence_file form) as [[file_name buffer]|],
    current_user as [user|]; intros [= <- <- <-];
    eexists _, _; repeat split; reflexivity.
Qed.

Lemma manage_complaint_submit_inv (complaints cs : list Complaint.t)
    (selected : Z) (status department admin_notes now : string) :
  manage_complaint_submit complaints selected status department admin_notes
    now = (ManageUpdated, cs) ->
  exists (c : Complaint.t) (before after : list Complaint.t),
    get selected complaints = Some c
    /\ complaints = before ++ c :: after
    /\ Forall (fun c' => Complaint.id c' <> selected) before
    /\ Complaint.id c = selected
    /\ cs = before
            ++ assign_admin_fields status (or_None department)
                 (or_None admin_notes) now c :: after.
Proof.
  unfold manage_complaint_submit, manage_complaint_form.
  destruct (get selected complaints) as [c|] eqn:Hget; [|discriminate].
  destruct (negb _); [discriminate|].
  destruct (match Complaint.department c with
            | Some d => _
            | None => false
            end); [discriminate|].
  intros [= <-]. destruct (get_Some_In _ _ _ Hget) as [_ Hid].
  unfold update_status. rewrite Hid.
  destruct (update_loop_first selected
              (assign_admin_fields status (or_None department)
                 (or_None admin_notes) now) complaints c Hget)
    as (before & after & Hcs & Hb & Hc & Hu).
  exists c, before, after. rewrite Hu. auto.
Qed.

(** ** Sequential ids *)

Lemma ids_ok_app (cs : list Complaint.t) (c : Complaint.t) :
  ids_ok cs ->
  Complaint.id c = Z.of_nat (List.length cs) + 1 ->
  ids_ok (cs ++ [c]).
Proof.
  intros Hcs Hc i c' Hi.
  destruct (Nat.lt_ge_cases i (List.length cs)) as [Hlt|Hge].
  - rewrite lookup_app_l in Hi by exact Hlt. now apply Hcs.
  - rewrite lookup_app_r in Hi by exact Hge.
    destruct (i - List.length cs)%nat as [|k] eqn:Hk; [|discriminate Hi].
    injection Hi as <-. rewrite Hc. f_equal. lia.
Qed.

Lemma ids_ok_assign (before after : list Complaint.t) (c c' : Complaint.t) :
  Complaint.id c' = Complaint.id c ->
  ids_ok (before ++ c :: after) -> ids_ok (before ++ c' :: after).
Proof.
  intros Hid Hok i x Hi.
  destruct (Nat.lt_ge_cases i (List.length before)) as [Hlt|Hge].
  - rewrite lookup_app_l in Hi by exact Hlt.
    apply Hok. now rewrite lookup_app_l.
  - rewrite lookup_app_r in Hi by exact Hge.
    destruct (i - List.length before)%nat as [|k] eqn:Hk.
    + injection Hi as <-. rewrite Hid. apply Hok.
      rewrite lookup_app_r by exact Hge. now rewrite Hk.
    + apply Hok. rewrite lookup_app_r by exact Hge. now rewrite Hk.
Qed.

Lemma ids_ok_lt (cs : list Complaint.t) (c : Complaint.t) :
  ids_ok cs -> In c cs ->
  1 <= Complaint.id c <= Z.of_nat (List.length cs).
Proof.
  intros Hok Hin. apply list_elem_of_In, list_elem_of_lookup in Hin as [i Hi].
  pose proof (lookup_lt_Some _ _ _ Hi). rewrite (Hok i c Hi). lia.
Qed.

Lemma ids_ok_get_offset (cs : list Complaint.t) :
  forall (k : Z) (c : Complaint.t),
    (forall i x, cs !! i = Some x -> Complaint.id x = k + Z.of_nat i + 1) ->
    In c cs -> get (Complaint.id c) cs = Some c.
Proof.
  unfold get. induction cs as [|c0 cs IH]; intros k c Hok Hin; [destruct Hin|].
  simpl. destruct Hin as [->|Hin].
  - now rewrite Z.eqb_refl.
  - destruct (Z.eqb_spec (Complaint.id c0) (Complaint.id c)) as [Heq|_].
    + exfalso. apply list_elem_of_In, list_elem_of_lookup in Hin as [j Hj].
      pose proof (Hok 0%nat c0 eq_refl) as H0.
      pose proof (Hok (S j) c Hj) as H1. lia.
    + apply (IH (k + 1)); [|exact Hin].
      intros i x Hi. rewrite (Hok (S i) x Hi). lia.
Qed.

Lemma ids_ok_get (cs : list Complaint.t) (c : Complaint.t) :
  ids_ok cs -> In c cs -> get (Complaint.id c) cs = Some c.
Proof.
  intros Hok. apply (ids_ok_get_offset cs 0).
  intros i x Hi. rewrite (Hok i x Hi). lia.
Qed.

Lemma shown_id_In (cid : Z) (shown : list Complaint.t) :
  shown_id cid shown = true ->
  exists c, In c shown /\ Complaint.id c = cid.
Proof.
  unfold shown_id. rewrite existsb_exists. intros (c & Hin & Heq).
  exists c. split; [exact Hin | now apply Z.eqb_eq].
Qed.

Lemma get_app_l (selected : Z) (cs more : list Complaint.t) (c : Complaint.t) :
  get selected cs = Some c -> get selected (cs ++ more) = Some c.
Proof.
  unfold get. induction cs as [|c0 cs IH]; simpl; [discriminate|].
  destruct (Z.eqb (Complaint.id c0) selected); auto.
Qed.

Lemma my_complaints_page_In (user : User.t) (complaints shown : list Complaint.t)
    (c : Complaint.t) :
  my_complaints_page (Some user) complaints = Ok shown ->
  In c shown <->
  In c complaints /\ Complaint.user_email c = User.email user.
Proof.
  rewrite my_complaints_page_shown. intros [= <-].
  rewrite <- (String.eqb_eq (Complaint.user_email c)).
  rewrite <- (filter_In
    (fun c => String.eqb (Complaint.user_email c) (User.email user))).
  split; apply Permutation_in; [|symmetry]; apply sorted_reverse_perm.
Qed.

(** ** The invariants hold in every reachable world *)

Lemma init_system_mono (now : string) (users : gmap string User.t)
    (k : string) (u : User.t) :
  users !! k = Some u -> init_system now users !! k = Some u.
Proof.
  intros H. unfold init_system.
  destruct (users !! ADMIN_EMAIL) eqn:Ha; [exact H|].
  rewrite lookup_insert_ne; [exact H | congruence].
Qed.

Lemma init_system_has_admin (now : string) (users : gmap string User.t) :
  is_Some (init_system now users !! ADMIN_EMAIL).
Proof.
  unfold init_system. destruct (users !! ADMIN_EMAIL) eqn:Ha.
  - rewrite Ha. eauto.
  - rewrite lookup_insert_eq. eauto.
Qed.

Lemma init_system_users_ok (now : string) (users : gmap string User.t) :
  users_ok users -> users_ok (init_system now users).
Proof.
  intros Hok. unfold init_system.
  destruct (users !! ADMIN_EMAIL) eqn:Ha; [exact Hok|].
  intros k u Hk. destruct (decide (k = ADMIN_EMAIL)) as [->|Hne].
  - rewrite lookup_insert_eq in Hk. injection Hk as <-. simpl.
    repeat split; auto; discriminate.
  - rewrite lookup_insert_ne in Hk by congruence. now apply Hok.
Qed.

Lemma owners_ok_mono (us us' : gmap string User.t) (cs : list Complaint.t) :
  (forall k u, us !! k = Some u -> us' !! k = Some u) ->
  owners_ok us cs -> owners_ok us' cs.
Proof.
  intros Hmono Hok c Hin. destruct (Hok c Hin) as (u & Hu & Hrest).
  exists u. split; [now apply Hmono | exact Hrest].
Qed.

Lemma world_ok_init (now : string) (w : World) :
  world_ok w -> world_ok (set_users (init_system now (users w)) w).
Proof.
  intros [Hu Hs Hi Ho Hr]. split; simpl.
  - now apply init_system_users_ok.
  - intros u Hcu. apply init_system_mono. now apply Hs.
  - exact Hi.
  - eapply owners_ok_mono; [|exact Ho]. intros k u. apply init_system_mono.
  - exact Hr.
Qed.

Lemma world_ok_navigate (w : World) (p : string) (selected : option Z) :
  world_ok w ->
  role_ok (Build_World (users w) (complaints w) (uploads w) (current_user w)
             p selected) ->
  world_ok (Build_World (users w) (complaints w) (uploads w) (current_user w)
              p selected).
Proof. intros [Hu Hs Hi Ho _] Hr. split; assumption. Qed.

Ltac role_at H Hroute :=
  unfold role_ok in H; rewrite Hroute in H.

Lemma outcome_world_ok (en : env) (w w' : World) :
  outcome en w w' ->
  is_Some (users w !! ADMIN_EMAIL) ->
  world_ok w -> world_ok w'.
Proof.
  intros Hout Hadmin Hw. pose proof Hw as [Hu Hs Hi Ho Hr].
  destruct Hout as
    [ | user Hcu | user Hcu Ha | user Hcu Ha | user Hcu Ha | user Hcu
    | email password user Hroute Hlogin | Hroute
    | name email phone password confirm users' Hroute Hreg | Hroute
    | user Hroute Hcu Ha | user Hroute Hcu Ha | user Hroute Hcu Ha
    | Hroute | form cid cs ups Hroute Hfile | ups Hroute
    | Hroute Hshown | cid shown Hroute Hshown Hid | Hroute
    | cid Hroute Hid | Hroute
    | selected status department admin_notes cs Hroute Hsel Hupd ].
  - exact Hw.
  - apply world_ok_navigate; [exact Hw|]. unfold role_ok. simpl. eauto.
  - apply world_ok_navigate; [exact Hw|]. unfold role_ok. simpl. eauto.
  - apply world_ok_navigate; [exact Hw|]. unfold role_ok. simpl. eauto.
  - apply world_ok_navigate; [exact Hw|]. unfold role_ok. simpl. eauto.
  - split; simpl; try assumption; [discriminate | exact I].
  - apply login_submit_inv in Hlogin as [Hlook _].
    split; simpl; try assumption.
    + intros u [= <-]. destruct (Hu _ _ Hlook) as (-> & _). exact Hlook.
    + unfold role_ok. simpl. eauto.
  - apply world_ok_navigate; [exact Hw|]. exact I.
  - apply register_submit_inv in Hreg
      as (Hfresh & Hne & _ & _ & _ & _ & ->).
    assert (Hnot_admin : email <> ADMIN_EMAIL).
    { intros ->. destruct Hadmin as [a Ha]. congruence. }
    assert (Hmono : forall k u, users w !! k = Some u ->
              <[email := User.Build name email phone (hash_password password)
                           false (now en 1%nat)]> (users w) !! k = Some u).
    { intros k u Hk. rewrite lookup_insert_ne; [exact Hk | congruence]. }
    split; simpl.
    + intros k u Hk. destruct (decide (k = email)) as [->|Hk'].
      * rewrite lookup_insert_eq in Hk. injection Hk as <-. simpl.
        repeat split; auto; try discriminate; intros; congruence.
      * rewrite lookup_insert_ne in Hk by congruence. now apply Hu.
    + intros u Hcu. apply Hmono. now apply Hs.
    + exact Hi.
    + eapply owners_ok_mono; [exact Hmono | exact Ho].
    + exact I.
  - apply world_ok_navigate; [exact Hw|]. exact I.
  - apply world_ok_navigate; [exact Hw|]. unfold role_ok. simpl. eauto.
  - apply world_ok_navigate; [exact Hw|]. unfold role_ok. simpl. eauto.
  - apply world_ok_navigate; [exact Hw|]. unfold role_ok. simpl. eauto.
  - role_at Hr Hroute. destruct Hr as (u & Hcu & _).
    apply world_ok_navigate; [exact Hw|]. unfold role_ok. simpl. eauto.
  - role_at Hr Hroute. destruct Hr as (u & Hcu & Ha).
    apply file_complaint_submit_inv in Hfile
      as (user & new & Hcu' & -> & -> & Hnid & Hmail & Hname & _).
    assert (user = u) as -> by congruence.
    split; simpl; try assumption.
    + now apply ids_ok_app.
    + intros c Hin. apply in_app_or in Hin as [Hin|[<-|[]]]; [now apply Ho|].
      exists u. rewrite Hmail, Hname. auto.
    + unfold role_ok. simpl. eauto.
  - split; simpl; assumption.
  - role_at Hr Hroute. destruct Hr as (u & Hcu & Ha).
    apply world_ok_navigate; [exact Hw|]. unfold role_ok. simpl. eauto.
  - role_at Hr Hroute. destruct Hr as (u & Hcu & Ha).
    apply (world_ok_navigate w "view_complaint" (Some cid)); [exact Hw|].
    unfold role_ok. simpl.
    rewrite Hcu in Hshown. apply shown_id_In in Hid as (c & Hin & <-).
    apply (my_complaints_page_In u _ _ c Hshown) in Hin as [Hin Hmail].
    exists u, (Complaint.id c), c. repeat split; auto.
    now apply ids_ok_get.
  - role_at Hr Hroute. destruct Hr as (u & _ & _ & Hcu & Ha & _).
    apply world_ok_navigate; [exact Hw|]. unfold role_ok. simpl. eauto.
  - role_at Hr Hroute. destruct Hr as (u & Hcu & Ha).
    apply (world_ok_navigate w "manage_complaint" (Some cid)); [exact Hw|].
    unfold role_ok. simpl.
    apply shown_id_In in Hid as (c & Hin & <-).
    apply (Permutation_in _ (sorted_reverse_perm _ _)) in Hin.
    exists u, (Complaint.id c), c. repeat split; auto.
    now apply ids_ok_get.
  - role_at Hr Hroute. destruct Hr as (u & _ & _ & Hcu & Ha & _).
    apply world_ok_navigate; [exact Hw|]. unfold role_ok. simpl. eauto.
  - role_at Hr Hroute. destruct Hr as (u & _ & _ & Hcu & Ha & _).
    apply manage_complaint_submit_inv in Hupd
      as (c & before & after & _ & Hcs & _ & _ & ->).
    split; simpl; try assumption.
    + rewrite Hcs in Hi. eapply ids_ok_assign; [|exact Hi]. reflexivity.
    + intros x Hin. rewrite Hcs in Ho.
      apply in_app_or in Hin as [Hin|[<-|Hin]].
      * apply Ho, in_or_app. auto.
      * apply (Ho c), in_or_app. simpl. auto.
      * apply Ho, in_or_app. simpl. auto.
    + unfold role_ok. simpl. eauto.
Qed.

Lemma main_world_ok (en : env) (w : World) (e : event) :
  world_ok w -> world_ok (main en w e).
Proof.
  intros Hw. eapply outcome_world_ok.
  - apply main_outcome.
  - apply init_system_has_admin.
  - now apply world_ok_init.
Qed.

Lemma reachable_world_ok (w : World) : reachable w -> world_ok w.
Proof.
  induction 1 as [|en w e _ IH _|w _ IH].
  - split; simpl.
    + intros k u Hk. rewrite lookup_empty in Hk. discriminate.
    + discriminate.
    + intros i c Hi. discriminate.
    + intros c [].
    + exact I.
  - now apply main_world_ok.
  - destruct IH as [Hu Hs Hi Ho Hr]. split; simpl; try assumption.
    + discriminate.
    + exact I.
Qed.

(** ** The incident date of a filing *)






(** ** Properties of every script run *)

Lemma outcome_users_mono (en : env) (w w' : World) (k : string) (u : User.t) :
  outcome en w w' -> users w !! k = Some u -> users w' !! k = Some u.
Proof.
  intros Hout Hk. destruct Hout; simpl; try exact Hk.
  match goal with
  | H : register_submit _ _ _ _ _ _ _ = _ |- _ =>
      apply register_submit_inv in H as (Hfresh & _ & _ & _ & _ & _ & ->)
  end.
  rewrite lookup_insert_ne; [exact Hk | congruence].
Qed.

(** X1: no script run removes or changes a user record: whatever is stored
    under an email before [main] runs is stored under it afterwards, for
    every world and every event. *)
Theorem users_never_lost (en : env) (w : World) (e : event) (k : string)
    (u : User.t) :
  users w !! k = Some u -> users (main en w e) !! k = Some u.
Proof.
  intros Hk. eapply outcome_users_mono; [apply main_outcome|].
  simpl. now apply init_system_mono.
Qed.

Lemma users_never_lost_witness :
  let w := runs sample_env sample_filing initial_world in
  users (main sample_env w
           (RegisterSubmit "Eve" "asha@example.org" "5550199" "other" "other"))
    !! "asha@example.org"%string
  = Some (User.Build "Asha" "asha@example.org" "5550100"
            (hash_password "s3cret!") false "2024-05-02T08:30:00.000120").
Proof.
  cbv zeta. apply users_never_lost. vm_compute. reflexivity.
Defined.


Lemma outcome_complaints_kept (en : env) (w w' : World) (i : nat)
    (c : Complaint.t) :
  outcome en w w' -> complaints w !! i = Some c ->
  exists c',
    complaints w' !! i = Some c'
    /\ (c' = c
        \/ exists status department admin_notes updated_at,
             route (page w) = Some ManageComplaintPage
             /\ c' = assign_admin_fields status department admin_notes
                       updated_at c).
Proof.
  intros Hout Hi. destruct Hout; simpl; eauto.
  - match goal with
    | H : file_complaint_submit _ _ _ _ _ _ = _ |- _ =>
        apply file_complaint_submit_inv in H
          as (user & new & _ & _ & -> & _)
    end.
    exists c. split; [|auto]. rewrite lookup_app_l; [exact Hi|].
    now apply lookup_lt_Some in Hi.
  - match goal with
    | H : manage_complaint_submit _ _ _ _ _ _ = _ |- _ =>
        apply manage_complaint_submit_inv in H
          as (c0 & before & after & _ & Hcs & _ & _ & ->)
    end.
    rewrite Hcs in Hi.
    destruct (Nat.lt_ge_cases i (List.length before)) as [Hlt|Hge].
    + exists c. split; [|auto]. rewrite lookup_app_l in * by exact Hlt.
      exact Hi.
    + rewrite lookup_app_r in Hi by exact Hge.
      rewrite lookup_app_r by exact Hge.
      destruct (i - List.length before)%nat as [|j].
      * injection Hi as ->. eexists. split; [reflexivity|]. right. eauto 10.
      * exists c. auto.
Qed.

(** X3: the complaint list is append-only and the filed data never change:
    in every world, the complaint at an index before a script run is at the
    same index after it, with the same id, owner email and name, title,
    category, description, location, incident date, evidence file and
    [created_at]. *)
Theorem complaints_append_only (en : env) (w : World) (e : event) (i : nat)
    (c : Complaint.t) :
  complaints w !! i = Some c ->
  exists c',
    complaints (main en w e) !! i = Some c'
    /\ Complaint.id c' = Complaint.id c
    /\ Complaint.user_email c' = Complaint.user_email c
    /\ Complaint.user_name c' = Complaint.user_name c
    /\ Complaint.title c' = Complaint.title c
    /\ Complaint.category c' = Complaint.category c
    /\ Complaint.description c' = Complaint.description c
    /\ Complaint.location c' = Complaint.location c
    /\ Complaint.incident_date c' = Complaint.incident_date c
    /\ Complaint.evidence_file c' = Complaint.evidence_file c
    /\ Complaint.created_at c' = Complaint.created_at c.
Proof.
  intros Hi.
  destruct (outcome_complaints_kept en _ _ i c (main_outcome en w e) Hi)
    as (c' & Hc' & Hcase).
  exists c'. split; [exact Hc'|].
  destruct Hcase as [->|(s & d & n & t & _ & ->)]; repeat split; reflexivity.
Qed.

Lemma complaints_append_only_witness :
  let w := runs sample_env (sample_filing ++ sample_resolution) initial_world in
  exists c',
    complaints
      (main sample_env
         (runs sample_env [AdminManage 1] w)
         (ManageSubmit "Rejected" "" "Duplicate report")) !! 0%nat = Some c'
    /\ Complaint.title c' = "Pothole"%string
    /\ Complaint.user_email c' = "asha@example.org"%string
    /\ Complaint.created_at c' = "2024-05-02T08:30:00.000120"%string.
Proof.
  cbv zeta.
  destruct (complaints_append_only sample_env
              (runs sample_env [AdminManage 1]
                 (runs sample_env (sample_filing ++ sample_resolution)
                    initial_world))
              (ManageSubmit "Rejected" "" "Duplicate report") 0%nat
              (Complaint.Build 1 "asha@example.org" "Asha" "Pothole"
                 "Civic Body" "Large pothole on Main St" "Main St"
                 "2024-05-01" None "Resolved" (Some "Civic Services")
                 (Some "Filled on 2 May") "2024-05-02T08:30:00.000120"
                 "2024-05-02T08:30:00.000120"))
    as (c' & Hc' & _ & Hmail & _ & Htitle & _ & _ & _ & _ & _ & Hcreated).
  - vm_compute. reflexivity.
  - exists c'. auto.
Defined.

(** ** More on updating *)

Lemma update_loop_at (cid : Z) (assign : Complaint.t -> Complaint.t)
    (before after : list Complaint.t) (c : Complaint.t) :
  Forall (fun c' => Complaint.id c' <> cid) before ->
  Complaint.id c = cid ->
  update_loop cid assign 0 (before ++ c :: after) (before ++ c :: after)
  = before ++ assign c :: after.
Proof.
  intros Hb Hc.
  destruct (update_loop_first cid assign (before ++ c :: after) c
              (get_first cid before after c Hb Hc))
    as (before' & after' & Heq & Hb' & _ & ->).
  assert (Hlen : forall l1 l2 r1 r2 : list Complaint.t,
             Forall (fun c' => Complaint.id c' <> cid) l1 ->
             Forall (fun c' => Complaint.id c' <> cid) l2 ->
             l1 ++ c :: r1 = l2 ++ c :: r2 -> l1 = l2 /\ r1 = r2).
  { induction l1 as [|x l1 IH]; intros [|y l2] r1 r2 H1 H2 H; simpl in H.
    - injection H as ->. auto.
    - injection H as <- _. apply Forall_cons in H2 as [H2 _]. contradiction.
    - injection H as -> _. apply Forall_cons in H1 as [H1 _]. contradiction.
    - injection H as -> H. apply Forall_cons in H1 as [_ H1].
      apply Forall_cons in H2 as [_ H2].
      destruct (IH l2 r1 r2 H1 H2 H) as [-> ->]. auto. }
  destruct (Hlen _ _ _ _ Hb Hb' Heq) as [-> ->]. reflexivity.
Qed.

(** X4: the last update wins: two updates of the same id in a row leave the
    list as the second one alone would, for every list, whether or not it
    holds the id. *)
Theorem update_status_last_write_wins (complaints : list Complaint.t)
    (cid : Z) (status1 department1 admin_notes1 now1 : string)
    (status2 department2 admin_notes2 now2 : string) :
  update_status
    (update_status complaints cid status1 department1 admin_notes1 now1)
    cid status2 department2 admin_notes2 now2
  = update_status complaints cid status2 department2 admin_notes2 now2.
Proof.
  unfold update_status. destruct (get cid complaints) as [c|] eqn:Hget.
  - destruct (update_loop_first cid (fun x => x) complaints c Hget)
      as (before & after & -> & Hb & Hc & _).
    set (f1 := assign_admin_fields status1 (or_None department1)
                 (or_None admin_notes1) now1).
    set (f2 := assign_admin_fields status2 (or_None department2)
                 (or_None admin_notes2) now2).
    rewrite (update_loop_at cid f1 before after c Hb Hc).
    rewrite (update_loop_at cid f2 before after (f1 c) Hb Hc).
    rewrite (update_loop_at cid f2 before after c Hb Hc). reflexivity.
  - rewrite (update_loop_absent cid _ complaints Hget).
    reflexivity.
Qed.

(** X5: the manage page answers "not found" exactly when no complaint has the
    selected id, and whenever it does not report an update (not found, or a
    stored status or department outside the select boxes) the list is left
    as it was. *)
Theorem manage_complaint_not_found (complaints : list Complaint.t)
    (selected : Z) (status department admin_notes now : string) :
  let r := manage_complaint_submit complaints selected status department
             admin_notes now in
  (fst r = ManageNotFound <-> get selected complaints = None)
  /\ (fst r <> ManageUpdated -> snd r = complaints)
  /\ (get selected complaints = None ->
      update_status complaints selected status department admin_notes now
      = complaints).
Proof.
  cbv zeta. unfold manage_complaint_submit, manage_complaint_form.
  destruct (get selected complaints) as [c|] eqn:Hget.
  - destruct (negb _); simpl;
      [split; [split; discriminate | split; [reflexivity | discriminate]]|].
    destruct (match Complaint.department c with
              | Some d => _
              | None => false
              end); simpl.
    + split; [split; discriminate | split; [reflexivity | discriminate]].
    + split; [split; discriminate | split; [congruence | discriminate]].
  - simpl. split; [tauto|]. split; [reflexivity|].
    intros _. unfold update_status. now apply update_loop_absent.
Qed.

(** ** Evidence files *)

(** X6: a filing that succeeds writes the uploaded evidence under the name
    made of the new id, an underscore and the uploaded file's name, records
    that name in the complaint, replaces whatever was stored under it and
    touches no other stored file; without an upload the stored files are
    unchanged and the complaint records [None]. *)
Theorem evidence_stored_under_id_and_name (current_user : option User.t)
    (form : complaint_form) (now_created now_updated : string)
    (complaints cs : list Complaint.t) (uploads ups : gmap string string)
    (cid : Z) :
  file_complaint_submit current_user form now_created now_updated complaints
    uploads = (FileSuccess cid, cs, ups) ->
  exists new_complaint,
    cs = complaints ++ [new_complaint]
    /\ match form_evidence_file form with
       | Some (file_name, buffer) =>
           let stored := (pretty cid ++ "_" ++ file_name)%string in
           Complaint.evidence_file new_complaint = Some stored
           /\ ups !! stored = Some buffer
           /\ forall other, other <> stored -> ups !! other = uploads !! other
       | None =>
           Complaint.evidence_file new_complaint = None /\ ups = uploads
       end.
Proof.
  intros H. apply file_complaint_submit_inv in H
    as (user & new & _ & _ & -> & _ & _ & _ & _ & _ & He).
  exists new. split; [reflexivity|].
  destruct (form_evidence_file form) as [[file_name buffer]|]; [|exact He].
  destruct He as [-> ->]. cbv zeta. split; [reflexivity|]. split.
  - apply lookup_insert_eq.
  - intros other Hne. now rewrite lookup_insert_ne.
Qed.

Lemma evidence_stored_under_id_and_name_witness :
  exists new_complaint ups,
    file_complaint_submit
      (Some (User.Build "Asha" "asha@example.org" "5550100"
               (hash_password "s3cret!") false "2024-05-01T10:00:00"))
      (ComplaintForm "Light" "Civic Body" "Street light broken" "Oak St"
         (Date 2024 5 7) (Some ("photo.png", "PNG")))
      "2024-05-08T07:00:00" "2024-05-08T07:00:00.000004"
      three_complaints {["4_photo.png"%string := "old"%string]}
    = (FileSuccess 4, three_complaints ++ [new_complaint], ups)
    /\ Complaint.evidence_file new_complaint = Some "4_photo.png"%string
    /\ ups !! "4_photo.png"%string = Some "PNG"%string.
Proof.
  destruct (file_complaint_submit
      (Some (User.Build "Asha" "asha@example.org" "5550100"
               (hash_password "s3cret!") false "2024-05-01T10:00:00"))
      (ComplaintForm "Light" "Civic Body" "Street light broken" "Oak St"
         (Date 2024 5 7) (Some ("photo.png", "PNG")))
      "2024-05-08T07:00:00" "2024-05-08T07:00:00.000004"
      three_complaints {["4_photo.png"%string := "old"%string]})
    as [[r cs] ups] eqn:Hf.
  assert (Hr : r = FileSuccess 4)
    by (apply (f_equal (fun x => fst (fst x))) in Hf; symmetry; exact Hf).
  subst r.
  destruct (evidence_stored_under_id_and_name _ _ _ _ _ _ _ _ _ Hf)
    as (new & -> & Hfile & Hlook & _).
  exists new, ups. split; [reflexivity|]. split; [exact Hfile | exact Hlook].
Defined.

(** ** Listings under updates and ties *)

Section sorted_reverse_related.

Context {A : Type} (key : A -> string) (R : A -> A -> Prop).
Hypothesis R_key : forall x y, R x y -> key x = key y.

Lemma insert_reverse_related (x y : A) (l l' : list A) :
  R x y -> Forall2 R l l' ->
  Forall2 R (insert_reverse key x l) (insert_reverse key y l').
Proof.
  intros Hxy Hl. induction Hl as [|a b l l' Hab Hl IH]; simpl.
  - repeat constructor. exact Hxy.
  - rewrite (R_key _ _ Hxy), (R_key _ _ Hab).
    destruct (String.ltb (key y) (key b)); repeat constructor; assumption.
Qed.

Lemma sorted_reverse_related (l l' : list A) :
  Forall2 R l l' ->
  Forall2 R (sorted_reverse key l) (sorted_reverse key l').
Proof.
  induction 1 as [|a b l l' Hab Hl IH]; simpl; [constructor|].
  now apply insert_reverse_related.
Qed.

End sorted_reverse_related.

Lemma update_status_same_filing (complaints : list Complaint.t) (cid : Z)
    (status department admin_notes now : string) :
  Forall2 same_filing complaints
    (update_status complaints cid status department admin_notes now).
Proof.
  assert (Hrefl : forall l : list Complaint.t, Forall2 same_filing l l).
  { induction l; constructor; [repeat split | assumption]. }
  unfold update_status. destruct (get cid complaints) as [c|] eqn:Hget.
  - destruct (update_loop_first cid
                (assign_admin_fields status (or_None department)
                   (or_None admin_notes) now) complaints c Hget)
      as (before & after & -> & _ & _ & ->).
    apply Forall2_app; [apply Hrefl|].
    constructor; [repeat split | apply Hrefl].
  - rewrite update_loop_absent by exact Hget. apply Hrefl.
Qed.

Lemma user_complaints_same_filing (email : string)
    (l l' : list Complaint.t) :
  Forall2 same_filing l l' ->
  Forall2 same_filing (user_complaints email l) (user_complaints email l').
Proof.
  induction 1 as [|c c' l l' (Hid & Hmail & Hat) Hl IH]; simpl; [constructor|].
  rewrite Hmail.
  destruct (String.eqb (Complaint.user_email c') email);
    [constructor; [repeat split|]|]; assumption.
Qed.

Lemma same_filing_ids (l l' : list Complaint.t) :
  Forall2 same_filing l l' ->
  List.map Complaint.id l = List.map Complaint.id l'.
Proof.
  induction 1 as [|c c' l l' (Hid & _) Hl IH]; simpl; congruence.
Qed.

(** X7: an update never reorders a listing: both the administrator's listing
    and every user's listing show the same complaints (by id) at the same
    places after [update_status] as before, because the update leaves
    [created_at] and the owner alone. *)
Theorem update_status_keeps_listing_order (complaints : list Complaint.t)
    (cid : Z) (status department admin_notes now : string) (user : User.t) :
  let complaints' :=
    update_status complaints cid status department admin_notes now in
  List.map Complaint.id (admin_dashboard_page complaints')
  = List.map Complaint.id (admin_dashboard_page complaints)
  /\ match my_complaints_page (Some user) complaints',
           my_complaints_page (Some user) complaints with
     | Ok shown', Ok shown =>
         List.map Complaint.id shown' = List.map Complaint.id shown
     | _, _ => False
     end.
Proof.
  cbv zeta.
  pose proof (update_status_same_filing complaints cid status department
                admin_notes now) as Hsame.
  assert (Hkey : forall x y, same_filing x y ->
                   Complaint.created_at x = Complaint.created_at y)
    by (intros x y (_ & _ & H); exact H).
  split.
  - symmetry. apply same_filing_ids.
    now apply (sorted_reverse_related Complaint.created_at same_filing Hkey).
  - rewrite !my_complaints_page_shown. symmetry. apply same_filing_ids.
    apply (sorted_reverse_related Complaint.created_at same_filing Hkey).
    now apply user_complaints_same_filing.
Qed.

(** X8: complaints with the same [created_at] are listed in the order in
    which the store holds them: restricted to any one timestamp, the
    administrator's listing is the store's list restricted the same way. *)
Theorem admin_dashboard_page_ties_in_store_order
    (complaints : list Complaint.t) (created_at : string) :
  List.filter (fun c => String.eqb (Complaint.created_at c) created_at)
    (admin_dashboard_page complaints)
  = List.filter (fun c => String.eqb (Complaint.created_at c) created_at)
      complaints.
Proof. apply sorted_reverse_stable. Qed.

(** ** Password hashes *)

Lemma hex_digit_In (d : Z) :
  0 <= d < 16 ->
  In (SHA256.hex_digit d) (list_ascii_of_string "0123456789abcdef").
Proof.
  intros Hd. unfold SHA256.hex_digit. apply nth_In.
  change (List.length (list_ascii_of_string "0123456789abcdef")) with 16%nat.
  lia.
Qed.

Lemma hex_nibbles_shape (n : nat) (x : Z) :
  String.length (SHA256.hex_nibbles n x) = n
  /\ hex_string (SHA256.hex_nibbles n x).
Proof.
  unfold hex_string.
  induction n as [|n [IHl IHf]]; simpl; [split; [reflexivity | constructor]|].
  split; [now rewrite IHl|]. constructor; [|exact IHf].
  apply hex_digit_In. apply Z.mod_pos_bound. lia.
Qed.

Lemma list_ascii_of_string_app (s1 s2 : string) :
  list_ascii_of_string (s1 ++ s2)
  = list_ascii_of_string s1 ++ list_ascii_of_string s2.
Proof. induction s1 as [|c s1 IH]; simpl; [reflexivity | now rewrite IH]. Qed.

Lemma string_length_app (s1 s2 : string) :
  String.length (s1 ++ s2) = (String.length s1 + String.length s2)%nat.
Proof. induction s1 as [|c s1 IH]; simpl; [reflexivity | now rewrite IH]. Qed.

Lemma concat_shape (n : nat) (l : list string) :
  Forall (fun s => String.length s = n /\ hex_string s) l ->
  String.length (String.concat "" l) = (List.length l * n)%nat
  /\ hex_string (String.concat "" l).
Proof.
  unfold hex_string.
  induction 1 as [|s l [Hlen Hhex] Hl [IHlen IHhex]];
    [split; [reflexivity | constructor]|].
  destruct l as [|s' l].
  - simpl. split; [lia | exact Hhex].
  - change (String.concat "" (s :: s' :: l))
      with (s ++ String.concat "" (s' :: l))%string.
    rewrite string_length_app, list_ascii_of_string_app, IHlen, Hlen.
    split; [simpl; lia|]. apply Forall_app. auto.
Qed.

(** X9: whatever the password, [hash_password] returns 64 characters, each
    one of 0-9 and a-f; so the value stored at registration differs from the
    password itself as soon as the password is not 64 characters long. *)
Theorem hash_password_shape (password : string) :
  String.length (hash_password password) = 64%nat
  /\ hex_string (hash_password password)
  /\ (String.length password <> 64%nat -> hash_password password <> password).
Proof.
  assert (Hshape : String.length (hash_password password) = 64%nat
                   /\ hex_string (hash_password password)).
  { unfold hash_password, SHA256.hexdigest. cbv zeta.
    apply (concat_shape 8). rewrite List.Forall_map.
    apply List.Forall_forall. intros x _. apply hex_nibbles_shape. }
  destruct Hshape as [Hlen Hhex]. split; [exact Hlen|]. split; [exact Hhex|].
  intros Hne Heq. rewrite Heq in Hlen. contradiction.
Qed.

Lemma hash_password_shape_witness :
  String.length (hash_password "admin123") = 64%nat
  /\ hash_password "admin123" <> "admin123"%string.
Proof.
  destruct (hash_password_shape "admin123") as (Hlen & _ & Hne).
  split; [exact Hlen|]. apply Hne. discriminate.
Defined.

(** ** Properties of the reachable worlds *)

(** X10: in every reachable world each user record is stored under its own
    email, that email is not empty, and the administrator flag is set on the
    record of admin@justice.gov and on no other: registration never makes an
    administrator. *)
Theorem reachable_users_shape (w : World) (k : string) (u : User.t) :
  reachable w -> users w !! k = Some u ->
  User.email u = k /\ k <> ""%string
  /\ (User.is_admin u = true <-> k = "admin@justice.gov"%string).
Proof. intros Hr. apply (ok_users w (reachable_world_ok w Hr)). Qed.

Lemma reachable_users_shape_witness :
  let w := runs sample_env sample_filing initial_world in
  User.is_admin
    (User.Build "Asha" "asha@example.org" "5550100" (hash_password "s3cret!")
       false "2024-05-02T08:30:00.000120") = true
  <-> "asha@example.org"%string = "admin@justice.gov"%string.
Proof.
  cbv zeta.
  apply (reachable_users_shape
           (runs sample_env sample_filing initial_world) "asha@example.org"
           (User.Build "Asha" "asha@example.org" "5550100"
              (hash_password "s3cret!") false "2024-05-02T08:30:00.000120")).
  - apply reachable_runs; [apply reachable_initial | vm_compute; reflexivity].
  - vm_compute. reflexivity.
Defined.

(** X11: the user of a session is always a record of the user table: in
    every reachable world the current user is what the table holds under
    that user's email. *)
Theorem session_user_registered (w : World) (u : User.t) :
  reachable w -> current_user w = Some u ->
  users w !! User.email u = Some u.
Proof. intros Hr. apply (ok_session w (reachable_world_ok w Hr)). Qed.

Lemma session_user_registered_witness :
  users (runs sample_env sample_filing initial_world)
    !! "asha@example.org"%string
  = Some (User.Build "Asha" "asha@example.org" "5550100"
            (hash_password "s3cret!") false "2024-05-02T08:30:00.000120").
Proof.
  apply (session_user_registered
           (runs sample_env sample_filing initial_world)
           (User.Build "Asha" "asha@example.org" "5550100"
              (hash_password "s3cret!") false "2024-05-02T08:30:00.000120")).
  - apply reachable_runs; [apply reachable_initial | vm_compute; reflexivity].
  - vm_compute. reflexivity.
Defined.

(** X12: ids are sequential and unique: in every reachable world the
    complaint at index [i] of the store has id [i + 1], and looking that id
    up returns this complaint. *)
Theorem reachable_ids_sequential (w : World) (i : nat) (c : Complaint.t) :
  reachable w -> complaints w !! i = Some c ->
  Complaint.id c = Z.of_nat i + 1
  /\ get (Z.of_nat i + 1) (complaints w) = Some c.
Proof.
  intros Hr Hi. pose proof (ok_ids w (reachable_world_ok w Hr)) as Hids.
  split; [now apply Hids|]. rewrite <- (Hids i c Hi).
  apply ids_ok_get; [exact Hids|].
  apply list_elem_of_In, list_elem_of_lookup. eauto.
Qed.

Lemma reachable_ids_sequential_witness :
  exists c,
    complaints (runs sample_env sample_filing initial_world) !! 0%nat = Some c
    /\ Complaint.id c = 1
    /\ get 1 (complaints (runs sample_env sample_filing initial_world))
       = Some c.
Proof.
  eexists. split; [vm_compute; reflexivity|].
  apply (reachable_ids_sequential
           (runs sample_env sample_filing initial_world) 0%nat).
  - apply reachable_runs; [apply reachable_initial | vm_compute; reflexivity].
  - vm_compute. reflexivity.
Defined.

(** X13: filing and lookup compose: in a reachable world, after a filing
    that succeeds, looking up the id it returns gives the complaint just
    appended, and every id that was found before is still found, with the
    same complaint. *)
Theorem filed_complaint_found_by_id (w : World) (form : complaint_form)
    (now_created now_updated : string) (cid : Z) (cs : list Complaint.t)
    (ups : gmap string string) :
  reachable w ->
  file_complaint_submit (current_user w) form now_created now_updated
    (complaints w) (uploads w) = (FileSuccess cid, cs, ups) ->
  exists new_complaint,
    cs = complaints w ++ [new_complaint]
    /\ get cid cs = Some new_complaint
    /\ forall selected c,
         get selected (complaints w) = Some c -> get selected cs = Some c.
Proof.
  intros Hr Hf. pose proof (ok_ids w (reachable_world_ok w Hr)) as Hids.
  apply file_complaint_submit_inv in Hf
    as (user & new & _ & Hcid & -> & Hnew & _).
  exists new. split; [reflexivity|]. split.
  - rewrite <- Hnew. apply ids_ok_get.
    + apply ids_ok_app; [exact Hids | congruence].
    + apply in_or_app. simpl. auto.
  - intros selected c. apply get_app_l.
Qed.

Lemma filed_complaint_found_by_id_witness :
  let new_complaint :=
    Complaint.Build 2 "asha@example.org" "Asha" "Noise" "Police"
      "Loud music every night" "Elm St" "2024-05-02" None "Filed" None None
      "2024-05-06T23:10:00" "2024-05-06T23:10:00.000009" in
  get 2 (complaints (runs sample_env sample_filing initial_world)
           ++ [new_complaint]) = Some new_complaint.
Proof.
  cbv zeta.
  destruct (filed_complaint_found_by_id
              (runs sample_env sample_filing initial_world)
              (ComplaintForm "Noise" "Police" "Loud music every night"
                 "Elm St" (Date 2024 5 2) None)
              "2024-05-06T23:10:00" "2024-05-06T23:10:00.000009" 2
              (complaints (runs sample_env sample_filing initial_world)
                 ++ [Complaint.Build 2 "asha@example.org" "Asha" "Noise"
                       "Police" "Loud music every night" "Elm St"
                       "2024-05-02" None "Filed" None None
                       "2024-05-06T23:10:00" "2024-05-06T23:10:00.000009"])
              (uploads (runs sample_env sample_filing initial_world)))
    as (new & Heq & Hget & _).
  - apply reachable_runs; [apply reachable_initial | vm_compute; reflexivity].
  - vm_compute. reflexivity.
  - apply app_inv_head in Heq. injection Heq as <-. exact Hget.
Defined.

(** ** Who can do what *)

Lemma reachable_after_init (en : env) (w : World) :
  reachable w ->
  world_ok (set_users (init_system (now en 0%nat) (users w)) w).
Proof. intros Hr. apply world_ok_init. now apply reachable_world_ok. Qed.

(** X14: only an administrator changes a filed complaint: in a reachable
    world, when a script run leaves a complaint of the store different from
    what it was, the session's user is an administrator and the page is the
    manage page. *)
Theorem only_administrator_updates (en : env) (w : World) (e : event)
    (i : nat) (c c' : Complaint.t) :
  reachable w ->
  complaints w !! i = Some c ->
  complaints (main en w e) !! i = Some c' ->
  c' <> c ->
  exists u,
    current_user w = Some u /\ User.is_admin u = true
    /\ route (page w) = Some ManageComplaintPage.
Proof.
  intros Hr Hi Hi' Hne.
  destruct (outcome_complaints_kept en _ _ i c (main_outcome en w e) Hi)
    as (c'' & Hc'' & Hcase).
  assert (c'' = c') as -> by congruence.
  destruct Hcase as [->|(s & d & n & t & Hroute & _)]; [contradiction|].
  pose proof (ok_role _ (reachable_after_init en w Hr)) as Hrole.
  unfold role_ok in Hrole. rewrite Hroute in Hrole.
  destruct Hrole as (u & _ & _ & Hcu & Ha & _). eauto.
Qed.

Lemma only_administrator_updates_witness :
  let w := runs sample_env (sample_filing ++ firstn 4 sample_resolution)
             initial_world in
  exists u,
    current_user w = Some u /\ User.is_admin u = true
    /\ route (page w) = Some ManageComplaintPage.
Proof.
  cbv zeta.
  apply (only_administrator_updates sample_env
           (runs sample_env (sample_filing ++ firstn 4 sample_resolution)
              initial_world)
           (ManageSubmit "Resolved" "Civic Services" "Filled on 2 May") 0%nat
           (Complaint.Build 1 "asha@example.org" "Asha" "Pothole" "Civic Body"
              "Large pothole on Main St" "Main St" "2024-05-01" None "Filed"
              None None "2024-05-02T08:30:00.000120"
              "2024-05-02T08:30:00.000131")
           (Complaint.Build 1 "asha@example.org" "Asha" "Pothole" "Civic Body"
              "Large pothole on Main St" "Main St" "2024-05-01" None
              "Resolved" (Some "Civic Services") (Some "Filled on 2 May")
              "2024-05-02T08:30:00.000120" "2024-05-02T08:30:00.000120")).
  - apply reachable_runs; [apply reachable_initial | vm_compute; reflexivity].
  - vm_compute. reflexivity.
  - vm_compute. reflexivity.
  - discriminate.
Defined.

Lemma outcome_complaints_grow (en : env) (w w' : World) :
  outcome en w w' ->
  List.length (complaints w') = List.length (complaints w)
  \/ exists form cid ups,
       route (page w) = Some FileComplaintPage
       /\ file_complaint_submit (current_user w) form (now en 1%nat)
            (now en 2%nat) (complaints w) (uploads w)
          = (FileSuccess cid, complaints w', ups).
Proof.
  intros Hout. destruct Hout; simpl; eauto 10.
  match goal with
  | H : manage_complaint_submit _ _ _ _ _ _ = _ |- _ =>
      apply manage_complaint_submit_inv in H
        as (c0 & before & after & _ & -> & _ & _ & ->)
  end.
  left. rewrite !length_app. reflexivity.
Qed.

(** X15: only a logged-in user who is no administrator adds a complaint: in
    a reachable world, when a script run changes the length of the store,
    it appended exactly one complaint, in status "Filed", carrying the email
    and name of the session's user, who is not an administrator. *)
Theorem only_users_file (en : env) (w : World) (e : event) :
  reachable w ->
  List.length (complaints (main en w e)) <> List.length (complaints w) ->
  exists u new_complaint,
    current_user w = Some u /\ User.is_admin u = false
    /\ complaints (main en w e) = complaints w ++ [new_complaint]
    /\ Complaint.user_email new_complaint = User.email u
    /\ Complaint.user_name new_complaint = User.name u
    /\ Complaint.status new_complaint = "Filed"%string.
Proof.
  intros Hr Hlen.
  destruct (outcome_complaints_grow en _ _ (main_outcome en w e))
    as [Hsame|(form & cid & ups & Hroute & Hf)]; [contradiction|].
  pose proof (ok_role _ (reachable_after_init en w Hr)) as Hrole.
  unfold role_ok in Hrole. rewrite Hroute in Hrole.
  destruct Hrole as (u & Hcu & Ha).
  apply file_complaint_submit_inv in Hf
    as (user & new & Hcu' & _ & Hcs & _ & Hmail & Hname & Hst & _).
  simpl in Hcu, Hcu', Hcs. assert (user = u) as -> by congruence.
  exists u, new. auto 10.
Qed.

Lemma only_users_file_witness :
  let w := runs sample_env (firstn 4 sample_filing) initial_world in
  exists u new_complaint,
    current_user w = Some u /\ User.is_admin u = false
    /\ complaints (runs sample_env sample_filing initial_world)
       = complaints w ++ [new_complaint]
    /\ Complaint.user_email new_complaint = User.email u
    /\ Complaint.user_name new_complaint = User.name u
    /\ Complaint.status new_complaint = "Filed"%string.
Proof.
  cbv zeta.
  apply (only_users_file sample_env
           (runs sample_env (firstn 4 sample_filing) initial_world)
           (FileSubmit (ComplaintForm "Pothole" "Civic Body"
                          "Large pothole on Main St" "Main St"
                          (Date 2024 5 1) None))).
  - apply reachable_runs; [apply reachable_initial | vm_compute; reflexivity].
  - vm_compute. discriminate.
Defined.

(** X16: the page of a session fits the role of its user: in every reachable
    world the page selector names one of the eight pages; the dashboard has
    a logged-in user, the filing, listing and detail pages a user who is no
    administrator, and the admin dashboard and manage pages an
    administrator. *)
Theorem pages_fit_roles (w : World) :
  reachable w ->
  exists v,
    route (page w) = Some v
    /\ match v with
       | LoginPage | RegisterPage => True
       | DashboardPage => exists u, current_user w = Some u
       | FileComplaintPage | MyComplaintsPage | ViewComplaintPage =>
           exists u, current_user w = Some u /\ User.is_admin u = false
       | AdminDashboardPage | ManageComplaintPage =>
           exists u, current_user w = Some u /\ User.is_admin u = true
       end.
Proof.
  intros Hr. pose proof (ok_role w (reachable_world_ok w Hr)) as Hrole.
  unfold role_ok in Hrole.
  destruct (route (page w)) as [v|]; [|contradiction].
  exists v. split; [reflexivity|].
  destruct v; auto; try exact Hrole.
  - destruct Hrole as (u & _ & _ & Hcu & Ha & _). eauto.
  - destruct Hrole as (u & _ & _ & Hcu & Ha & _). eauto.
Qed.

Lemma pages_fit_roles_witness :
  let w := runs sample_env (sample_filing ++ sample_resolution) initial_world in
  exists u, current_user w = Some u /\ User.is_admin u = true.
Proof.
  cbv zeta.
  assert (Hpage : route (page (runs sample_env
                                 (sample_filing ++ sample_resolution)
                                 initial_world)) = Some AdminDashboardPage)
    by (vm_compute; reflexivity).
  destruct (pages_fit_roles
              (runs sample_env (sample_filing ++ sample_resolution)
                 initial_world)) as (v & Hv & Hrole).
  - apply reachable_runs; [apply reachable_initial | vm_compute; reflexivity].
  - rewrite Hpage in Hv. injection Hv as <-. exact Hrole.
Defined.

(** X17: the detail page shows a user only their own complaints: in every
    reachable world whose page is the detail page, the selected complaint is
    found and its owner email is the email of the session's user. *)
Theorem detail_page_shows_own_complaint (w : World) :
  reachable w -> route (page w) = Some ViewComplaintPage ->
  exists u c,
    current_user w = Some u
    /\ view_complaint_page (selected_complaint w) (complaints w) = Ok (Some c)
    /\ Complaint.user_email c = User.email u.
Proof.
  intros Hr Hroute. pose proof (ok_role w (reachable_world_ok w Hr)) as Hrole.
  unfold role_ok in Hrole. rewrite Hroute in Hrole.
  destruct Hrole as (u & selected & c & Hcu & _ & Hsel & Hget & Hmail).
  exists u, c. rewrite Hsel. unfold view_complaint_page.
  destruct (complaints w) as [|c0 cs]; [discriminate Hget|].
  rewrite Hget. auto.
Qed.

Lemma detail_page_shows_own_complaint_witness :
  let w := runs sample_env (sample_filing ++ [MyComplaintsViewDetails 1])
             initial_world in
  exists u c,
    current_user w = Some u
    /\ view_complaint_page (selected_complaint w) (complaints w) = Ok (Some c)
    /\ Complaint.user_email c = User.email u.
Proof.
  cbv zeta. apply detail_page_shows_own_complaint.
  - apply reachable_runs; [apply reachable_initial | vm_compute; reflexivity].
  - vm_compute. reflexivity.
Defined.

(** X18: the manage page never fails in a reachable world: when the page is
    the manage page a complaint is selected, it is found under its id, and
    its stored status and department are among the options of the two
    select boxes, so neither "Complaint not found!" nor a [ValueError]
    occurs. *)
Theorem manage_page_always_renders (w : World) :
  reachable w -> route (page w) = Some ManageComplaintPage ->
  exists selected c,
    selected_complaint w = Some selected
    /\ manage_complaint_form (complaints w) selected = Ok (Some c)
    /\ Complaint.id c = selected.
Proof.
  intros Hr Hroute. pose proof (ok_role w (reachable_world_ok w Hr)) as Hrole.
  unfold role_ok in Hrole. rewrite Hroute in Hrole.
  destruct Hrole as (u & selected & c & _ & _ & Hsel & Hget).
  exists selected, c. split; [exact Hsel|].
  destruct (get_Some_In _ _ _ Hget) as [Hin Hid].
  split; [|exact Hid].
  pose proof (reachable_store_ok w Hr) as Hstore. unfold store_ok in Hstore.
  rewrite List.Forall_forall in Hstore.
  destruct (complaint_ok_values c (Hstore c Hin)) as [Hs Hd].
  now apply manage_complaint_form_ok.
Qed.

Lemma manage_page_always_renders_witness :
  let w := runs sample_env (sample_filing ++ firstn 4 sample_resolution)
             initial_world in
  exists selected c,
    selected_complaint w = Some selected
    /\ manage_complaint_form (complaints w) selected = Ok (Some c)
    /\ Complaint.id c = selected.
Proof.
  cbv zeta. apply manage_page_always_renders.
  - apply reachable_runs; [apply reachable_initial | vm_compute; reflexivity].
  - vm_compute. reflexivity.
Defined.

(** X19: every complaint belongs to a registered user: in every reachable
    world the owner email of each complaint is the key of a user record,
    that record is no administrator's, and the complaint carries its
    name. *)
Theorem complaint_owner_registered (w : World) (c : Complaint.t) :
  reachable w -> In c (complaints w) ->
  exists u,
    users w !! Complaint.user_email c = Some u
    /\ User.name u = Complaint.user_name c
    /\ User.is_admin u = false.
Proof. intros Hr. apply (ok_owners w (reachable_world_ok w Hr)). Qed.

Lemma complaint_owner_registered_witness :
  exists u,
    users (runs sample_env (sample_filing ++ sample_resolution) initial_world)
      !! "asha@example.org"%string = Some u
    /\ User.name u = "Asha"%string
    /\ User.is_admin u = false.
Proof.
  apply (complaint_owner_registered
           (runs sample_env (sample_filing ++ sample_resolution) initial_world)
           (Complaint.Build 1 "asha@example.org" "Asha" "Pothole" "Civic Body"
              "Large pothole on Main St" "Main St" "2024-05-01" None
              "Resolved" (Some "Civic Services") (Some "Filled on 2 May")
              "2024-05-02T08:30:00.000120" "2024-05-02T08:30:00.000120")).
  - apply reachable_runs; [apply reachable_initial | vm_compute; reflexivity].
  - vm_compute. auto.
Defined.

Lemma main_admin_record (en : env) (w : World) (e : event) :
  users (main en w e) !! ADMIN_EMAIL
  = Some (match users w !! ADMIN_EMAIL with
          | Some a => a
          | None => default_admin (now en 0%nat)
          end).
Proof.
  eapply outcome_users_mono; [apply main_outcome|]. simpl.
  destruct (users w !! ADMIN_EMAIL) as [a|] eqn:Ha.
  - now apply init_system_mono.
  - rewrite (init_system_creates _ _ Ha). apply lookup_insert_eq.
Qed.

Lemma reachable_admin_password (w : World) (a : User.t) :
  reachable w -> users w !! ADMIN_EMAIL = Some a ->
  User.password a = hash_password "admin123".
Proof.
  intros Hr. revert a.
  induction Hr as [|en w e _ IH _|w _ IH]; intros a Ha; simpl in Ha.
  - rewrite lookup_empty in Ha. discriminate.
  - rewrite main_admin_record in Ha. injection Ha as <-.
    destruct (users w !! ADMIN_EMAIL) as [a0|] eqn:Ha0; [now apply IH|].
    symmetry. apply hash_default_password.
  - now apply IH.
Qed.

(** X20: the default credentials always work: nothing in the application
    changes the administrator's password, so in every reachable world a
    session on the login page without a user is logged in as an
    administrator by one script run with admin@justice.gov and admin123,
    and is sent to the dashboard. *)
Theorem default_admin_always_logs_in (en : env) (w : World) :
  reachable w ->
  route (page w) = Some LoginPage ->
  current_user w = None ->
  let w' := main en w (LoginSubmit "admin@justice.gov" "admin123") in
  exists a,
    current_user w' = Some a
    /\ users w' !! ADMIN_EMAIL = Some a
    /\ User.is_admin a = true
    /\ User.password a = hash_password "admin123"
    /\ page w' = "dashboard"%string.
Proof.
  intros Hr Hroute Hcu. cbv zeta.
  set (a := match users w !! ADMIN_EMAIL with
            | Some a => a
            | None => default_admin (now en 0%nat)
            end).
  assert (Hinit : init_system (now en 0%nat) (users w) !! ADMIN_EMAIL = Some a).
  { subst a. destruct (users w !! ADMIN_EMAIL) as [a0|] eqn:Ha0.
    - now apply init_system_mono.
    - rewrite (init_system_creates _ _ Ha0). apply lookup_insert_eq. }
  assert (Hr' : reachable (main en w NoClick)) by now apply reachable_run.
  pose proof (main_admin_record en w NoClick) as Hrec. fold a in Hrec.
  assert (Hpw : User.password a = hash_password "admin123")
    by exact (reachable_admin_password _ a Hr' Hrec).
  assert (Hadm : User.is_admin a = true).
  { destruct (ok_users _ (reachable_world_ok _ Hr') _ _ Hrec)
      as (_ & _ & Hiff).
    now apply Hiff. }
  assert (Hmain : main en w (LoginSubmit "admin@justice.gov" "admin123")
                  = set_page "dashboard"
                      (set_current_user (Some a)
                         (set_users (init_system (now en 0%nat) (users w)) w))).
  { unfold main. cbv zeta.
    cbn [current_user page users set_users]. rewrite Hcu, Hroute.
    cbn [run_page current_user page users set_users].
    now rewrite (login_submit_welcome _ "admin@justice.gov" "admin123" a
                   Hinit Hpw). }
  exists a. rewrite Hmain. simpl. repeat split; auto.
Qed.

Lemma default_admin_always_logs_in_witness :
  let w := runs sample_env (sample_filing ++ [SidebarLogout]) initial_world in
  let w' := main sample_env w (LoginSubmit "admin@justice.gov" "admin123") in
  exists a,
    current_user w' = Some a
    /\ users w' !! ADMIN_EMAIL = Some a
    /\ User.is_admin a = true
    /\ User.password a = hash_password "admin123"
    /\ page w' = "dashboard"%string.
Proof.
  cbv zeta. apply default_admin_always_logs_in.
  - apply reachable_runs; [apply reachable_initial | vm_compute; reflexivity].
  - vm_compute. reflexivity.
  - vm_compute. reflexivity.
Defined.

(** ** Statistics and badges *)

Lemma count_status_cons (statuses : list string) (c : Complaint.t)
    (l : list Complaint.t) :
  count_status statuses (c :: l)
  = ((if existsb (String.eqb (Complaint.status c)) statuses then 1 else 0)
     + count_status statuses l)%nat.
Proof.
  unfold count_status. simpl.
  destruct (existsb (String.eqb (Complaint.status c)) statuses); reflexivity.
Qed.

Lemma count_status_pending_resolved (l : list Complaint.t) :
  (count_status ["Filed"; "Under Review"; "In Progress"]%string l
   + count_status ["Resolved"]%string l <= List.length l)%nat.
Proof.
  induction l as [|c l IH]; [reflexivity|].
  rewrite !count_status_cons. simpl List.length.
  remember (count_status ["Filed"; "Under Review"; "In Progress"]%string l)
    as pending.
  remember (count_status ["Resolved"]%string l) as resolved.
  destruct (String.eqb_spec (Complaint.status c) "Resolved") as [Heq|Hne].
  - rewrite Heq. simpl. subst pending resolved. lia.
  - apply String.eqb_neq in Hne. simpl. rewrite Hne. simpl.
    destruct (_ || _); subst pending resolved; lia.
Qed.

Lemma count_status_partition (l : list Complaint.t) :
  Forall complaint_ok l ->
  List.length l
  = (count_status ["Filed"]%string l
     + count_status ["Under Review"]%string l
     + count_status ["In Progress"]%string l
     + count_status ["Resolved"]%string l
     + count_status ["Rejected"]%string l)%nat
  /\ count_status ["Filed"; "Under Review"; "In Progress"]%string l
     = (count_status ["Filed"]%string l
        + count_status ["Under Review"]%string l
        + count_status ["In Progress"]%string l)%nat
  /\ count_status ["Under Review"; "Rejected"]%string l
     = (count_status ["Under Review"]%string l
        + count_status ["Rejected"]%string l)%nat.
Proof.
  induction 1 as [|c l Hc Hl (IH1 & IH2 & IH3)];
    [repeat split; reflexivity|].
  rewrite !count_status_cons. simpl List.length. rewrite IH1, IH2, IH3.
  generalize (count_status ["Filed"]%string l)
    (count_status ["Under Review"]%string l)
    (count_status ["In Progress"]%string l)
    (count_status ["Resolved"]%string l)
    (count_status ["Rejected"]%string l).
  intros n1 n2 n3 n4 n5.
  destruct (complaint_ok_values c Hc) as [Hs _]. simpl in Hs.
  destruct Hs as [Hs|[Hs|[Hs|[Hs|[Hs|[]]]]]]; rewrite <- Hs; simpl;
    repeat split; lia.
Qed.

(** X21: the dashboard counts what the listing shows: in a reachable world
    the total on an administrator's dashboard is the number of complaints in
    the store, the total on another user's dashboard is the number of
    complaints their "My Complaints" page lists, and in both cases pending
    plus resolved does not exceed the total. *)
Theorem dashboard_counts_listing (w : World) (u : User.t) :
  reachable w -> current_user w = Some u ->
  exists total pending resolved,
    dashboard_page (current_user w) (complaints w)
    = Ok (total, pending, resolved)
    /\ (pending + resolved <= total)%nat
    /\ (User.is_admin u = true -> total = List.length (complaints w))
    /\ (User.is_admin u = false ->
        exists shown,
          my_complaints_page (current_user w) (complaints w) = Ok shown
          /\ total = List.length shown).
Proof.
  intros Hr Hcu. pose proof (reachable_world_ok w Hr) as Hok.
  destruct (ok_users w Hok _ _ (ok_session w Hok u Hcu)) as (_ & Hne & _).
  apply truthy_spec in Hne.
  rewrite Hcu. unfold dashboard_page, get_complaint_stats. rewrite Hne.
  eexists _, _, _. split; [reflexivity|].
  split; [apply count_status_pending_resolved|].
  split; intros Ha; rewrite Ha; simpl; [reflexivity|].
  eexists. split; [apply my_complaints_page_shown|].
  symmetry. apply Permutation_length, sorted_reverse_perm.
Qed.

Lemma dashboard_counts_listing_witness :
  let w := runs sample_env sample_filing initial_world in
  exists total pending resolved,
    dashboard_page (current_user w) (complaints w)
    = Ok (total, pending, resolved)
    /\ (pending + resolved <= total)%nat
    /\ exists shown,
         my_complaints_page (current_user w) (complaints w) = Ok shown
         /\ total = List.length shown.
Proof.
  cbv zeta.
  destruct (dashboard_counts_listing
              (runs sample_env sample_filing initial_world)
              (User.Build "Asha" "asha@example.org" "5550100"
                 (hash_password "s3cret!") false "2024-05-02T08:30:00.000120"))
    as (t & p & r & Hd & Hle & _ & Hmine).
  - apply reachable_runs; [apply reachable_initial | vm_compute; reflexivity].
  - vm_compute. reflexivity.
  - exists t, p, r. split; [exact Hd|]. split; [exact Hle|].
    apply Hmine. reflexivity.
Defined.

(** X22: the counters do not add up to the total: in a reachable world the
    administrator's four numbers satisfy total = filed + in progress +
    resolved + the complaints under review or rejected, which no counter
    shows, and the dashboard's three numbers for an administrator satisfy
    total = pending + resolved + the rejected ones. *)
Theorem counters_leave_out_statuses (w : World) :
  reachable w ->
  (let '(total, filed, in_progress, resolved) :=
     admin_dashboard_stats (complaints w) in
   total = (filed + in_progress + resolved
            + count_status ["Under Review"; "Rejected"]%string (complaints w))%nat)
  /\ (let '(total, pending, resolved) :=
        get_complaint_stats (complaints w) (Some ADMIN_EMAIL) true in
      total = (pending + resolved
               + count_status ["Rejected"]%string (complaints w))%nat).
Proof.
  intros Hr.
  destruct (count_status_partition (complaints w) (reachable_store_ok w Hr))
    as (Hlen & Hpending & Hhidden).
  unfold admin_dashboard_stats, get_complaint_stats. simpl.
  rewrite Hpending, Hhidden. split; lia.
Qed.

Lemma counters_leave_out_statuses_witness :
  let w := runs sample_env
             (sample_filing ++ firstn 4 sample_resolution
                ++ [ManageSubmit "Rejected" "" "Duplicate report"])
             initial_world in
  admin_dashboard_stats (complaints w) = (1, 0, 0, 0)%nat
  /\ (1 = 0 + 0 + 0
          + count_status ["Under Review"; "Rejected"]%string (complaints w))%nat.
Proof.
  cbv zeta.
  assert (Hstats : admin_dashboard_stats
                     (complaints
                        (runs sample_env
                           (sample_filing ++ firstn 4 sample_resolution
                              ++ [ManageSubmit "Rejected" "" "Duplicate report"])
                           initial_world)) = (1, 0, 0, 0)%nat)
    by (vm_compute; reflexivity).
  split; [exact Hstats|].
  destruct (counters_leave_out_statuses
              (runs sample_env
                 (sample_filing ++ firstn 4 sample_resolution
                    ++ [ManageSubmit "Rejected" "" "Duplicate report"])
                 initial_world)) as [Hadmin _].
  - apply reachable_runs; [apply reachable_initial | vm_compute; reflexivity].
  - rewrite Hstats in Hadmin. exact Hadmin.
Defined.

(** X23: two of the five status badges have no style: for every complaint of
    a reachable world the class [get_status_badge] puts on the badge is
    status-filed, status-under-review, status-in-progress, status-resolved or
    status-rejected, and it is one of the classes the style sheet colours
    exactly when the status is Filed, Resolved or Rejected. *)
Theorem status_badge_styles (w : World) (c : Complaint.t) :
  reachable w -> In c (complaints w) ->
  get_status_badge (Complaint.status c)
  = ("<span class=" ++ double_quote ++ "status-badge status-"
       ++ status_class (Complaint.status c) ++ double_quote ++ ">"
       ++ Complaint.status c ++ "</span>")%string
  /\ In (status_class (Complaint.status c))
        ["filed"; "under-review"; "in-progress"; "resolved"; "rejected"]%string
  /\ (In ("status-" ++ status_class (Complaint.status c))%string STATUS_STYLES
      <-> In (Complaint.status c) ["Filed"; "Resolved"; "Rejected"]%string).
Proof.
  intros Hr Hin. split; [reflexivity|].
  pose proof (reachable_store_ok w Hr) as Hstore. unfold store_ok in Hstore.
  rewrite List.Forall_forall in Hstore.
  destruct (complaint_ok_values c (Hstore c Hin)) as [Hs _]. simpl in Hs.
  destruct Hs as [Hs|[Hs|[Hs|[Hs|[Hs|[]]]]]]; rewrite <- Hs;
    (split; [cbv; tauto|]); cbv;
    (split; intros H;
     repeat match goal with
            | H : _ \/ _ |- _ => destruct H as [H|H]
            | H : False |- _ => destruct H
            | H : _ = _ |- _ => discriminate H
            end; tauto).
Qed.

Lemma status_badge_styles_witness :
  In ("status-" ++ status_class "Under Review")%string STATUS_STYLES
  <-> In "Under Review"%string ["Filed"; "Resolved"; "Rejected"]%string.
Proof.
  destruct (status_badge_styles
              (runs sample_env
                 (sample_filing ++ firstn 4 sample_resolution
                    ++ [ManageSubmit "Under Review" "" ""])
                 initial_world)
              (Complaint.Build 1 "asha@example.org" "Asha" "Pothole"
                 "Civic Body" "Large pothole on Main St" "Main St"
                 "2024-05-01" None "Under Review" None None
                 "2024-05-02T08:30:00.000120" "2024-05-02T08:30:00.000120"))
    as (_ & _ & Hiff).
  - apply reachable_runs; [apply reachable_initial | vm_compute; reflexivity].
  - vm_compute. auto.
  - exact Hiff.
Defined.
